(** * Skater: the [Model] base class of pyinterpret/model/model.py

    A shallow embedding of [Model] (output-signature inference, the one-hot
    formatter, the diagnostic report) together with the few numpy and
    scikit-learn operations the class calls, and the properties of the
    specification that concern them. *)

From Stdlib Require Import List ZArith Bool String Ascii Lia Arith.
From Stdlib Require Import Sorting.Sorted Permutation OrdersEx RelationClasses.
Import ListNotations.

Set Implicit Arguments.

Local Open Scope string_scope.
Local Open Scope Z_scope.

(** ** Array elements *)

(** A finite float64 is held as the integer that orders the IEEE-754 doubles:
    0 for both zeros, otherwise the bit pattern of the magnitude carrying the
    sign of the value.  Equality and order of finite doubles are then those of
    [Z]; no arithmetic on doubles occurs in the class.  NaN is not modelled. *)
Definition float64 := Z.

Definition f64_zero : float64 := 0.
(** 1.0 is 0x3FF0000000000000. *)
Definition f64_one : float64 := 4607182418800017408.

(** One element read out of an array, as Python sees it. *)
Inductive scalar :=
| SStr (s : string)
| SInt (z : Z)
| SFloat (f : float64)
| SNone.

Definition scalar_eq_dec (x y : scalar) : {x = y} + {x <> y}.
Proof.
  decide equality; first [ apply string_dec | apply Z.eq_dec ].
Defined.

(** ** Element types that numpy can sort

    [np.unique] and [LabelEncoder] only need a comparison of the elements;
    [ndarray.any] needs their truth value. *)
Class DType (A : Type) := {
  dt_compare : A -> A -> comparison;
  dt_truthy : A -> bool;
  dt_scalar : A -> scalar
}.

Definition dt_lt {A} `{DType A} (x y : A) : Prop := dt_compare x y = Lt.

Definition dt_eqb {A} `{DType A} (x y : A) : bool :=
  match dt_compare x y with Eq => true | _ => false end.

(** Strings compare by code point and are truthy when non-empty. *)
#[export] Instance dtype_str : DType string := {
  dt_compare := String_as_OT.compare;
  dt_truthy := fun s => negb (String.eqb s "");
  dt_scalar := SStr
}.

(** The two numeric element types.  Both are carried by [Z], so they are
    named where they are used instead of being found by instance resolution. *)
Definition dtype_int : DType Z := {|
  dt_compare := Z.compare;
  dt_truthy := fun z => negb (z =? 0);
  dt_scalar := SInt
|}.

Definition dtype_float : DType float64 := {|
  dt_compare := Z.compare;
  dt_truthy := fun f => negb (f =? f64_zero);
  dt_scalar := SFloat
|}.

(** ** Sorting and unique values ([np.unique]) *)

Section Unique.
Context {A : Type} {D : DType A}.

Fixpoint insert (x : A) (l : list A) : list A :=
  match l with
  | [] => [x]
  | y :: l' =>
      match dt_compare x y with
      | Gt => y :: insert x l'
      | _ => x :: l
      end
  end.

(** [ar.sort()] *)
Definition sort (l : list A) : list A := fold_right insert [] l.

(** Keep an element when it differs from its predecessor: the mask
    [ar[1:] != ar[:-1]] of [np.unique]. *)
Fixpoint dedup (l : list A) : list A :=
  match l with
  | [] => []
  | x :: l' =>
      match l' with
      | [] => [x]
      | y :: _ => if dt_eqb x y then dedup l' else x :: dedup l'
      end
  end.

(** The sorted distinct values of [l]. *)
Definition unique (l : list A) : list A := dedup (sort l).

(** Position of [x] in [classes]: the inverse index that
    [np.unique(..., return_inverse=True)] reports. *)
Fixpoint index_of (x : A) (classes : list A) : nat :=
  match classes with
  | [] => O
  | c :: cs => if dt_eqb x c then O else S (index_of x cs)
  end.

Definition inverse (l : list A) : list Z :=
  map (fun x => Z.of_nat (index_of x (unique l))) l.
End Unique.

(** ** numpy arrays *)

(** The storage of an array: numpy arrays are homogeneous, so the element
    type is fixed for the whole buffer.  An object array holds Python
    references; only references to [None] occur here ([np.array(None)]). *)
Inductive buffer :=
| BStr (xs : list string)
| BInt (xs : list Z)
| BFloat (xs : list float64)
| BObject (n : nat).

(** Row-major storage with its shape, outermost dimension first. *)
Record ndarray := mk_ndarray {
  shape : list nat;
  buf : buffer
}.

(** What indexing an array yields: an element or a sub-array. *)
Inductive pyval :=
| Scalar (s : scalar)
| Array (a : ndarray).

Definition buf_elems (b : buffer) : list scalar :=
  match b with
  | BStr xs => map SStr xs
  | BInt xs => map SInt xs
  | BFloat xs => map SFloat xs
  | BObject n => repeat SNone n
  end.

Definition buf_len (b : buffer) : nat :=
  match b with
  | BStr xs => List.length xs
  | BInt xs => List.length xs
  | BFloat xs => List.length xs
  | BObject n => n
  end.

Definition buf_firstn (k : nat) (b : buffer) : buffer :=
  match b with
  | BStr xs => BStr (firstn k xs)
  | BInt xs => BInt (firstn k xs)
  | BFloat xs => BFloat (firstn k xs)
  | BObject n => BObject (Nat.min k n)
  end.

Definition buf_of_scalar (s : scalar) : buffer :=
  match s with
  | SStr x => BStr [x]
  | SInt x => BInt [x]
  | SFloat x => BFloat [x]
  | SNone => BObject 1
  end.

(** Number of elements a shape announces. *)
Definition size_of (sh : list nat) : nat := fold_right Nat.mul 1%nat sh.

(** The storage holds exactly the elements the shape announces. *)
Definition well_formed (a : ndarray) : Prop :=
  buf_len (buf a) = size_of (shape a).

(** [np.array(x)]: an array is kept, a scalar becomes a 0-d array. *)
Definition np_array (x : pyval) : ndarray :=
  match x with
  | Array a => a
  | Scalar s => {| shape := []; buf := buf_of_scalar s |}
  end.

(** [isinstance(x, np.ndarray)] *)
Definition isinstance_ndarray (x : pyval) : bool :=
  match x with
  | Array _ => true
  | Scalar _ => false
  end.

(** [a.any()] followed by Python's truth test: some element is truthy.
    [None] is falsy, so an object array of [None] has no truthy element. *)
Definition np_any (a : ndarray) : bool :=
  match buf a with
  | BStr xs => existsb dt_truthy xs
  | BInt xs => existsb (dt_truthy (DType := dtype_int)) xs
  | BFloat xs => existsb (dt_truthy (DType := dtype_float)) xs
  | BObject _ => false
  end.

(** ** Exceptions and results *)

Inductive exn :=
| ModelError (msg : string)
| ValueError (msg : string)
| IndexError
| TypeError
| OtherError (msg : string).

Inductive result (A : Type) :=
| Ok (a : A)
| Raise (e : exn).
Arguments Ok {A} a.
Arguments Raise {A} e.

Class Monad (m : Type -> Type) := {
  ret : forall {A}, A -> m A;
  bind : forall {A B}, m A -> (A -> m B) -> m B
}.

Declare Scope monad_scope.
Delimit Scope monad_scope with monad.
Notation "x <- c ;; k" := (bind c (fun x => k))
  (at level 61, c at next level, right associativity) : monad_scope.
Notation "c ;; k" := (bind c (fun _ => k))
  (at level 61, right associativity) : monad_scope.
Local Open Scope monad_scope.

Definition result_bind {A B} (c : result A) (k : A -> result B) : result B :=
  match c with
  | Ok a => k a
  | Raise e => Raise e
  end.

#[export] Instance result_monad : Monad result := {
  ret := fun A a => Ok a;
  bind := fun A B => @result_bind A B
}.

(** [a[0]]: the first element of a 1-d array, the first sub-array of a
    higher-rank one; an [IndexError] on a 0-d or empty array. *)
Definition getitem0 (a : ndarray) : result pyval :=
  match shape a with
  | [] => Raise IndexError
  | O :: _ => Raise IndexError
  | S _ :: [] =>
      match buf_elems (buf a) with
      | s :: _ => Ok (Scalar s)
      | [] => Raise IndexError
      end
  | S _ :: rest =>
      Ok (Array {| shape := rest; buf := buf_firstn (size_of rest) (buf a) |})
  end.

(** [v[0]] on what an earlier indexing returned. *)
Definition pyval_getitem0 (v : pyval) : result pyval :=
  match v with
  | Array a => getitem0 a
  | Scalar _ => Raise IndexError
  end.

(** [len(a)] *)
Definition np_len (a : ndarray) : result nat :=
  match shape a with
  | [] => Raise TypeError
  | n :: _ => Ok n
  end.

(** [np.unique(a)]: the sorted distinct elements of the flattened array.
    Python 3 cannot order [None], so sorting two or more of them fails. *)
Definition np_unique (a : ndarray) : result ndarray :=
  match buf a with
  | BStr xs =>
      let u := unique xs in Ok {| shape := [List.length u]; buf := BStr u |}
  | BInt xs =>
      let u := unique (D := dtype_int) xs in
      Ok {| shape := [List.length u]; buf := BInt u |}
  | BFloat xs =>
      let u := unique (D := dtype_float) xs in
      Ok {| shape := [List.length u]; buf := BFloat u |}
  | BObject n =>
      if (n <=? 1)%nat then Ok {| shape := [n]; buf := BObject n |}
      else Raise TypeError
  end.

(** [np.squeeze]: drop every axis of length one. *)
Definition np_squeeze (a : ndarray) : ndarray :=
  {| shape := filter (fun d => negb (d =? 1)%nat) (shape a); buf := buf a |}.

(** ** scikit-learn encoders *)

(** [column_or_1d], which [LabelEncoder] applies to its input: a 1-d array is
    kept, a single column is flattened, any other shape is refused. *)
Definition column_or_1d (y : ndarray) : result ndarray :=
  match shape y with
  | [_] => Ok y
  | [n; 1%nat] => Ok {| shape := [n]; buf := buf y |}
  | _ => Raise (ValueError "bad input shape")
  end.

(** [LabelEncoder().fit_transform(y)]: each label is replaced by its position
    among the sorted distinct labels
    ([classes_, y = np.unique(y, return_inverse=True)]). *)
Definition LabelEncoder_fit_transform (y : ndarray) : result (list Z) :=
  y <- column_or_1d y ;;
  match buf y with
  | BStr xs => Ok (inverse xs)
  | BInt xs => Ok (inverse (D := dtype_int) xs)
  | BFloat xs => Ok (inverse (D := dtype_float) xs)
  | BObject n => if (n <=? 1)%nat then Ok (repeat 0 n) else Raise TypeError
  end.

(** One row of the indicator matrix: a 1.0 under the category equal to
    [code], 0.0 under the others. *)
Definition onehot_row (cats : list Z) (code : Z) : list float64 :=
  map (fun k => if k =? code then f64_one else f64_zero) cats.

(** [OneHotEncoder().fit_transform(X).todense()] for an integer column [X] of
    shape (n, 1), given by its values: one output column per distinct value,
    in increasing order; an empty column is refused ([check_array] asks for
    one sample at least). *)
Definition OneHotEncoder_fit_transform (column : list Z) : result ndarray :=
  match column with
  | [] => Raise (ValueError "Found array with 0 sample(s)")
  | _ =>
      let cats := unique (D := dtype_int) column in
      Ok {| shape := [List.length column; List.length cats];
            buf := BFloat (flat_map (onehot_row cats) column) |}
  end.

(** [np.asarray] of a dense matrix: the same elements as an ndarray. *)
Definition np_asarray (a : ndarray) : ndarray := a.

(** ** StaticTypes *)

(** Modelled from the spec: the [StaticTypes] constants of
    util/static_types.py, which is not part of the sources at hand.  The spec
    lists [model_type] as {unknown, classifier, regressor} and
    [output_var_type] as {unknown, string, int, float}; [unknown] and
    [not_applicable] are sentinel values distinct from every inferred one. *)
Inductive model_types := mt_unknown | classifier | regressor.

Inductive output_types := ot_unknown | ot_string | ot_int | ot_float.

(** An attribute that holds the [unknown] sentinel until it is inferred. *)
Inductive attr (A : Type) :=
| Unknown
| Known (a : A).
Arguments Unknown {A}.
Arguments Known {A} a.

(** The values [self.probability] takes: a Python bool or a sentinel. *)
Inductive prob :=
| PBool (b : bool)
| PUnknown
| PNotApplicable.

(** Python's truth test on [self.probability]: the sentinels are non-empty
    constants, hence truthy; only [False] is falsy. *)
Definition prob_truthy (p : prob) : bool :=
  match p with
  | PBool b => b
  | PUnknown => true
  | PNotApplicable => true
  end.

Definition model_types_eqb (a b : model_types) : bool :=
  match a, b with
  | mt_unknown, mt_unknown => true
  | classifier, classifier => true
  | regressor, regressor => true
  | _, _ => false
  end.

Definition output_types_eqb (a b : output_types) : bool :=
  match a, b with
  | ot_unknown, ot_unknown => true
  | ot_string, ot_string => true
  | ot_int, ot_int => true
  | ot_float, ot_float => true
  | _, _ => false
  end.

(** Modelled from the spec: [return_data_type] of util/static_types.py, which
    is not part of the sources at hand.  It names the element type of one raw
    prediction: string, int or float, and unknown for anything else. *)
Definition return_data_type (thing : pyval) : output_types :=
  match thing with
  | Scalar (SStr _) => ot_string
  | Scalar (SInt _) => ot_int
  | Scalar (SFloat _) => ot_float
  | Scalar SNone => ot_unknown
  | Array _ => ot_unknown
  end.

(** ** The one-hot transform *)

(** [Model.predict_function_transformer] (a static method). *)
Definition predict_function_transformer (output : ndarray) : result ndarray :=
  (* label_encoder.fit_transform(output)[:, np.newaxis]: the codes, as a column *)
  _labels <- LabelEncoder_fit_transform output ;;
  (* onehot_encoder.fit_transform(_labels).todense() *)
  output <- OneHotEncoder_fit_transform _labels ;;
  (* np.squeeze(np.asarray(output)) *)
  Ok (np_squeeze (np_asarray output)).

(** [lambda x: x] *)
Definition identity_formatter (x : ndarray) : result ndarray := Ok x.

(** ** The Model object *)

(** One line of the diagnostic report.  The text rendering of the values by
    [str.format] is left out; a line is its label and the value it shows. *)
Inductive report :=
| ReportExample (v : pyval)
| ReportOutputs (v : pyval)
| ReportModelType (t : model_types)
| ReportOutputVarType (t : output_types)
| ReportOutputShape (s : attr (list nat))
| ReportNClasses (n : attr nat)
| ReportInputShape (s : attr (list nat))
| ReportProbability (p : prob).

(** A call made on the logging collaborator ([build_logger] is not part of
    the sources at hand; only the calls [Model] makes on it are recorded). *)
Inductive log_call :=
| LogWarn (msg : string)
| LogDebug (r : report).

(** The attributes of a [Model] instance.  [logger] is the sequence of calls
    made so far on [self.logger], oldest first. *)
Record Model := mk_Model {
  _log_level : Z;
  logger : list log_call;
  examples : pyval;
  model_type : model_types;
  output_var_type : output_types;
  output_shape : attr (list nat);
  n_classes : attr nat;
  input_shape : attr (list nat);
  probability : prob;
  formatter : ndarray -> result ndarray
}.

(** [np.array(None)] *)
Definition np_array_None : ndarray := np_array (Scalar SNone).

(** [Model.__init__] *)
Definition Model_init (log_level : Z) : Model :=
  {| _log_level := log_level;
     logger := [];
     examples := Array np_array_None;
     model_type := mt_unknown;
     output_var_type := ot_unknown;
     output_shape := Unknown;
     n_classes := Unknown;
     input_shape := Unknown;
     probability := PUnknown;
     formatter := identity_formatter |}.

(** Methods run on the instance: they read and assign its attributes and may
    raise.  The attributes assigned before a raise stay assigned. *)
Definition M (A : Type) : Type := Model -> result A * Model.

Definition M_ret {A} (a : A) : M A := fun self => (Ok a, self).

Definition M_bind {A B} (c : M A) (k : A -> M B) : M B :=
  fun self =>
    match c self with
    | (Ok a, self') => k a self'
    | (Raise e, self') => (Raise e, self')
    end.

#[export] Instance M_monad : Monad M := {
  ret := fun A => @M_ret A;
  bind := fun A B => @M_bind A B
}.

Definition get : M Model := fun self => (Ok self, self).

Definition modify (f : Model -> Model) : M unit := fun self => (Ok tt, f self).

Definition raise {A} (e : exn) : M A := fun self => (Raise e, self).

(** A call that does not touch the instance. *)
Definition lift {A} (r : result A) : M A := fun self => (r, self).

Definition set_examples_attr (v : pyval) (self : Model) : Model :=
  {| _log_level := _log_level self; logger := logger self; examples := v;
     model_type := model_type self; output_var_type := output_var_type self;
     output_shape := output_shape self; n_classes := n_classes self;
     input_shape := input_shape self; probability := probability self;
     formatter := formatter self |}.

Definition set_model_type (v : model_types) (self : Model) : Model :=
  {| _log_level := _log_level self; logger := logger self;
     examples := examples self;
     model_type := v; output_var_type := output_var_type self;
     output_shape := output_shape self; n_classes := n_classes self;
     input_shape := input_shape self; probability := probability self;
     formatter := formatter self |}.

Definition set_output_var_type (v : output_types) (self : Model) : Model :=
  {| _log_level := _log_level self; logger := logger self;
     examples := examples self;
     model_type := model_type self; output_var_type := v;
     output_shape := output_shape self; n_classes := n_classes self;
     input_shape := input_shape self; probability := probability self;
     formatter := formatter self |}.

Definition set_output_shape (v : attr (list nat)) (self : Model) : Model :=
  {| _log_level := _log_level self; logger := logger self;
     examples := examples self;
     model_type := model_type self; output_var_type := output_var_type self;
     output_shape := v; n_classes := n_classes self;
     input_shape := input_shape self; probability := probability self;
     formatter := formatter self |}.

Definition set_n_classes (v : attr nat) (self : Model) : Model :=
  {| _log_level := _log_level self; logger := logger self;
     examples := examples self;
     model_type := model_type self; output_var_type := output_var_type self;
     output_shape := output_shape self; n_classes := v;
     input_shape := input_shape self; probability := probability self;
     formatter := formatter self |}.

Definition set_input_shape (v : attr (list nat)) (self : Model) : Model :=
  {| _log_level := _log_level self; logger := logger self;
     examples := examples self;
     model_type := model_type self; output_var_type := output_var_type self;
     output_shape := output_shape self; n_classes := n_classes self;
     input_shape := v; probability := probability self;
     formatter := formatter self |}.

Definition set_probability (v : prob) (self : Model) : Model :=
  {| _log_level := _log_level self; logger := logger self;
     examples := examples self;
     model_type := model_type self; output_var_type := output_var_type self;
     output_shape := output_shape self; n_classes := n_classes self;
     input_shape := input_shape self; probability := v;
     formatter := formatter self |}.

Definition set_formatter (v : ndarray -> result ndarray) (self : Model) : Model :=
  {| _log_level := _log_level self; logger := logger self;
     examples := examples self;
     model_type := model_type self; output_var_type := output_var_type self;
     output_shape := output_shape self; n_classes := n_classes self;
     input_shape := input_shape self; probability := probability self;
     formatter := v |}.

(** A call on [self.logger]: it is appended to the record of calls. *)
Definition log (c : log_call) (self : Model) : Model :=
  {| _log_level := _log_level self; logger := (logger self ++ [c])%list;
     examples := examples self;
     model_type := model_type self; output_var_type := output_var_type self;
     output_shape := output_shape self; n_classes := n_classes self;
     input_shape := input_shape self; probability := probability self;
     formatter := formatter self |}.

(** [self.examples], for the methods whose parameter has the same name. *)
Definition self_examples (self : Model) : pyval := examples self.

(** [for x in xs: body(x)] *)
Fixpoint for_each {A} (xs : list A) (body : A -> M unit) : M unit :=
  match xs with
  | [] => ret tt
  | x :: xs' => body x ;; for_each xs' body
  end.

(** ** The methods of Model *)

Section Methods.

(** The abstract [predict], as a concrete subclass supplies it: a function of
    the batch, which may raise. *)
Variable predict : ndarray -> result ndarray.

(** [Model.__call__] *)
Definition call (examples : ndarray) : M ndarray := lift (predict examples).

(** [Model.set_examples] *)
Definition set_examples (examples : pyval) : M unit :=
  modify (set_examples_attr (Array (np_array examples))).

(** [Model.return_transformer_func] *)
Definition return_transformer_func (self : Model) : ndarray -> result ndarray :=
  if model_types_eqb (model_type self) classifier
     && negb (prob_truthy (probability self))
  then predict_function_transformer
  else identity_formatter.

(** [Model.model_report] *)
Definition model_report (examples : ndarray) : M (list report) :=
  self <- get ;;
  reports <-
    (if isinstance_ndarray (self_examples self) then
       raw_predictions <- lift (predict examples) ;;
       example <- lift (getitem0 examples) ;;
       output <- lift (getitem0 raw_predictions) ;;
       ret [ReportExample example; ReportOutputs output]
     else ret []) ;;
  ret (reports ++
       [ReportModelType (model_type self);
        ReportOutputVarType (output_var_type self);
        ReportOutputShape (output_shape self);
        ReportNClasses (n_classes self);
        ReportInputShape (input_shape self);
        ReportProbability (probability self)])%list.

(** [Model.check_output_signature] *)
Definition check_output_signature (examples : ndarray) : M unit :=
  if negb (np_any examples) then
    raise (ModelError "Examples have not been provided. Cannot check outputs")
  else
    outputs <- call examples ;;
    modify (set_input_shape (Known (shape examples))) ;;
    modify (set_output_shape (Known (shape outputs))) ;;
    match List.length (shape outputs) with
    | 1%nat =>
        example_output <- lift (getitem0 outputs) ;;
        modify (set_output_var_type (return_data_type example_output)) ;;
        self <- get ;;
        if output_types_eqb (output_var_type self) ot_string
           || output_types_eqb (output_var_type self) ot_int
        then
          (modify (set_model_type classifier) ;;
           modify (set_probability (PBool false)) ;;
           uniq <- lift (np_unique outputs) ;;
           n <- lift (np_len uniq) ;;
           modify (set_n_classes (Known n)))
        else if output_types_eqb (output_var_type self) ot_float then
          (modify (set_model_type regressor) ;;
           modify (set_n_classes (Known 1%nat)) ;;
           modify (set_probability PNotApplicable) ;;
           modify (log (LogWarn
             "Inferring model type to be a regressordue to 1D array of floats")))
        else ret tt
    | 2%nat =>
        modify (set_model_type classifier) ;;
        modify (set_n_classes (Known (nth 1 (shape outputs) O))) ;;
        row <- lift (getitem0 outputs) ;;
        example_output <- lift (pyval_getitem0 row) ;;
        modify (set_output_var_type (return_data_type example_output)) ;;
        self <- get ;;
        modify (set_probability
                  (PBool (output_types_eqb (output_var_type self) ot_float)))
    | _ => raise (ValueError "Unsupported model type, output dim = 3")
    end ;;
    self <- get ;;
    modify (set_formatter (return_transformer_func self)) ;;
    reports <- model_report examples ;;
    for_each reports (fun report => modify (log (LogDebug report))).

End Methods.

(** ** Notions used to state the properties *)

(** The order of two elements of the same type; elements of different types
    are never compared inside one array. *)
Definition scalar_lt (x y : scalar) : Prop :=
  match x, y with
  | SStr a, SStr b => String_as_OT.lt a b
  | SInt a, SInt b => a < b
  | SFloat a, SFloat b => a < b
  | _, _ => False
  end.

(** The elements of an array, in storage order. *)
Definition elements (a : ndarray) : list scalar := buf_elems (buf a).

(** Number of distinct values among the elements of an array. *)
Definition distinct_count (a : ndarray) : nat :=
  List.length (nodup scalar_eq_dec (elements a)).

(** Labels that can be sorted: every element type but object. *)
Definition comparable (a : ndarray) : Prop :=
  match buf a with
  | BObject _ => False
  | _ => True
  end.

(** The sorted distinct values of an array, as [np.unique] returns them. *)
Definition classes_of (a : ndarray) : list scalar :=
  match np_unique a with
  | Ok uniq => elements uniq
  | Raise _ => []
  end.

(** The indicator of label [x] under the column of class [c]. *)
Definition indicator (x c : scalar) : scalar :=
  if scalar_eq_dec x c then SFloat f64_one else SFloat f64_zero.

(** The rows of the indicator matrix of [labels] over the columns [classes],
    one after the other. *)
Definition indicator_rows (classes labels : list scalar) : list scalar :=
  flat_map (fun x => map (indicator x) classes) labels.

(** The closing steps of [check_output_signature]: cache the formatter,
    build the report, log it. *)
Definition epilogue predict (examples : ndarray) : M unit :=
  self <- get ;;
  modify (set_formatter (return_transformer_func self)) ;;
  reports <- model_report predict examples ;;
  for_each reports (fun report => modify (log (LogDebug report))).

(** ** Sample models *)

Definition sample_examples : ndarray :=
  {| shape := [2; 2]%nat; buf := BInt [1; 2; 3; 4] |}.

(** A classifier that names the class of each row. *)
Definition sample_labels : ndarray :=
  {| shape := [3]%nat; buf := BStr ["dog"; "cat"; "dog"] |}.

Definition predict_labels (x : ndarray) : result ndarray := Ok sample_labels.

(** A regressor. *)
Definition sample_values : ndarray :=
  {| shape := [2]%nat; buf := BFloat [f64_one; f64_zero] |}.

Definition predict_values (x : ndarray) : result ndarray := Ok sample_values.

(** A classifier that returns one score per class, here 0.0 and 1.0. *)
Definition sample_scores : ndarray :=
  {| shape := [2; 2]%nat; buf := BFloat [f64_zero; f64_one; f64_one; f64_zero] |}.

Definition predict_scores (x : ndarray) : result ndarray := Ok sample_scores.

(** A classifier that returns [[0, 1], [1, 0]]. *)
Definition sample_votes : ndarray :=
  {| shape := [2; 2]%nat; buf := BInt [0; 1; 1; 0] |}.

Definition predict_votes (x : ndarray) : result ndarray := Ok sample_votes.

(** A function whose output has three axes. *)
Definition sample_cube : ndarray :=
  {| shape := [2; 1; 1]%nat; buf := BInt [0; 1] |}.

Definition predict_cube (x : ndarray) : result ndarray := Ok sample_cube.

(** A batch of one row whose features are all zero. *)
Definition sample_zeros : ndarray :=
  {| shape := [1; 2]%nat; buf := BInt [0; 0] |}.

(** A batch with no row. *)
Definition sample_empty : ndarray := {| shape := [0]%nat; buf := BInt [] |}.

(** A function that returns its input. *)
Definition predict_echo (x : ndarray) : result ndarray := Ok x.

(** One label, twice. *)
Definition sample_apples : ndarray :=
  {| shape := [2]%nat; buf := BStr ["apple"; "apple"] |}.

(** The runs of [check_output_signature] on a fresh instance. *)
Definition run_labels : result unit * Model :=
  check_output_signature predict_labels sample_examples (Model_init 30).

Definition run_values : result unit * Model :=
  check_output_signature predict_values sample_examples (Model_init 30).

Definition run_scores : result unit * Model :=
  check_output_signature predict_scores sample_examples (Model_init 30).

Definition run_votes : result unit * Model :=
  check_output_signature predict_votes sample_examples (Model_init 30).

Definition run_cube : result unit * Model :=
  check_output_signature predict_cube sample_examples (Model_init 30).

(** ** Notions for the properties of whole runs *)

(** The inference block of [check_output_signature] (lines 92 to 125): the
    branch on the rank of the prediction.  [check_output_signature_unfold]
    shows that the method is the guard, the call of [predict], the two shape
    assignments, this block and the closing steps, in that order. *)
Definition inference (outputs : ndarray) : M unit :=
  match List.length (shape outputs) with
  | 1%nat =>
      example_output <- lift (getitem0 outputs) ;;
      modify (set_output_var_type (return_data_type example_output)) ;;
      self <- get ;;
      if output_types_eqb (output_var_type self) ot_string
         || output_types_eqb (output_var_type self) ot_int
      then
        (modify (set_model_type classifier) ;;
         modify (set_probability (PBool false)) ;;
         uniq <- lift (np_unique outputs) ;;
         n <- lift (np_len uniq) ;;
         modify (set_n_classes (Known n)))
      else if output_types_eqb (output_var_type self) ot_float then
        (modify (set_model_type regressor) ;;
         modify (set_n_classes (Known 1%nat)) ;;
         modify (set_probability PNotApplicable) ;;
         modify (log (LogWarn
           "Inferring model type to be a regressordue to 1D array of floats")))
      else ret tt
  | 2%nat =>
      modify (set_model_type classifier) ;;
      modify (set_n_classes (Known (nth 1 (shape outputs) O))) ;;
      row <- lift (getitem0 outputs) ;;
      example_output <- lift (pyval_getitem0 row) ;;
      modify (set_output_var_type (return_data_type example_output)) ;;
      self <- get ;;
      modify (set_probability
                (PBool (output_types_eqb (output_var_type self) ot_float)))
  | _ => raise (ValueError "Unsupported model type, output dim = 3")
  end.

(** The instances a program obtains from the constructor through the methods
    of the class, for a given [predict]. *)
Inductive reachable (predict : ndarray -> result ndarray) : Model -> Prop :=
| reach_init (log_level : Z) : reachable predict (Model_init log_level)
| reach_set_examples (v : pyval) (self : Model) :
    reachable predict self ->
    reachable predict (snd (set_examples v self))
| reach_check_output_signature (batch : ndarray) (self : Model) :
    reachable predict self ->
    reachable predict (snd (check_output_signature predict batch self))
| reach_model_report (batch : ndarray) (self : Model) :
    reachable predict self ->
    reachable predict (snd (model_report predict batch self)).

(** The six lines that close every report: the attributes of [self]. *)
Definition attribute_lines (self : Model) : list report :=
  [ReportModelType (model_type self);
   ReportOutputVarType (output_var_type self);
   ReportOutputShape (output_shape self);
   ReportNClasses (n_classes self);
   ReportInputShape (input_shape self);
   ReportProbability (probability self)].

(** Element [i][j] of a 2-d array with [K] columns, read from row-major
    storage. *)
Definition entry (a : ndarray) (K i j : nat) : scalar :=
  nth (i * K + j) (elements a) SNone.

(** A function that fails on every batch. *)
Definition predict_fail (x : ndarray) : result ndarray :=
  Raise (OtherError "model not fitted").

(** A function that returns an object array of [None]. *)
Definition sample_nones : ndarray := {| shape := [2]%nat; buf := BObject 2 |}.

Definition predict_nones (x : ndarray) : result ndarray := Ok sample_nones.

(** A 2-d prediction with two columns and no row. *)
Definition sample_no_rows : ndarray :=
  {| shape := [0; 2]%nat; buf := BFloat [] |}.

Definition predict_no_rows (x : ndarray) : result ndarray := Ok sample_no_rows.

(** * Properties *)

(** ** The element types are totally ordered *)

Class DTypeOk (A : Type) (D : DType A) : Prop := {
  dt_compare_spec :
    forall x y, CompareSpec (x = y) (dt_lt x y) (dt_lt y x) (dt_compare x y);
  dt_lt_irrefl : forall x, ~ dt_lt x x;
  dt_lt_trans : forall x y z, dt_lt x y -> dt_lt y z -> dt_lt x z;
  dt_scalar_inj : forall x y, dt_scalar x = dt_scalar y -> x = y;
  dt_scalar_lt : forall x y, dt_lt x y -> scalar_lt (dt_scalar x) (dt_scalar y)
}.

#[export] Instance dtype_str_ok : DTypeOk dtype_str.
Proof.
  split; unfold dt_lt; simpl.
  - intros x y. destruct (String_as_OT.compare_spec x y); constructor; auto.
  - intros x. exact (StrictOrder_Irreflexive (R := String_as_OT.lt) x).
  - intros x y z. exact (StrictOrder_Transitive (R := String_as_OT.lt) x y z).
  - congruence.
  - auto.
Qed.

#[export] Instance dtype_int_ok : DTypeOk dtype_int.
Proof.
  split; unfold dt_lt; simpl.
  - intros x y. destruct (Z.compare_spec x y); constructor; auto.
  - intros x. rewrite Z.compare_refl. discriminate.
  - intros x y z. rewrite !Z.compare_lt_iff. lia.
  - congruence.
  - intros x y. now rewrite Z.compare_lt_iff.
Qed.

#[export] Instance dtype_float_ok : DTypeOk dtype_float.
Proof.
  split; unfold dt_lt; simpl.
  - intros x y. destruct (Z.compare_spec x y); constructor; auto.
  - intros x. rewrite Z.compare_refl. discriminate.
  - intros x y z. rewrite !Z.compare_lt_iff. lia.
  - congruence.
  - intros x y. now rewrite Z.compare_lt_iff.
Qed.

(** ** Sorting and unique values *)

Section UniqueFacts.
Context {A : Type} {D : DType A} {OK : DTypeOk D}.

Definition dt_le (x y : A) : Prop := dt_compare x y <> Gt.

Lemma dt_eqb_eq (x y : A) : dt_eqb x y = true <-> x = y.
Proof.
  unfold dt_eqb. destruct (dt_compare_spec x y) as [E | L | G].
  - tauto.
  - split; [discriminate | intros ->; now apply dt_lt_irrefl in L].
  - split; [discriminate | intros ->; now apply dt_lt_irrefl in G].
Qed.

Lemma dt_eqb_refl (x : A) : dt_eqb x x = true.
Proof. now apply dt_eqb_eq. Qed.

Lemma dt_eqb_neq (x y : A) : dt_eqb x y = false <-> x <> y.
Proof.
  rewrite <- dt_eqb_eq. destruct (dt_eqb x y); split; congruence.
Qed.

Lemma dt_lt_asym (x y : A) : dt_lt x y -> dt_lt y x -> False.
Proof.
  intros H1 H2. exact (dt_lt_irrefl (dt_lt_trans H1 H2)).
Qed.

Lemma dt_le_cases (x y : A) : dt_le x y <-> x = y \/ dt_lt x y.
Proof.
  unfold dt_le. destruct (dt_compare_spec x y) as [E | L | G].
  - split; [auto | discriminate].
  - split; [auto | discriminate].
  - split; [congruence | ].
    intros [-> | L]; exfalso.
    + now apply dt_lt_irrefl in G.
    + exact (dt_lt_asym L G).
Qed.

Lemma dt_gt_lt (x y : A) : dt_compare x y = Gt -> dt_lt y x.
Proof.
  destruct (dt_compare_spec x y); congruence.
Qed.

Lemma insert_In (x y : A) (l : list A) :
  In y (insert x l) <-> y = x \/ In y l.
Proof.
  induction l as [| z l IH]; simpl.
  - intuition.
  - destruct (dt_compare x z); simpl; rewrite ?IH; intuition.
Qed.

Lemma sort_In (y : A) (l : list A) : In y (sort l) <-> In y l.
Proof.
  induction l as [| x l IH]; simpl.
  - tauto.
  - rewrite insert_In, IH. intuition.
Qed.

Lemma insert_HdRel (a x : A) (l : list A) :
  dt_le a x -> HdRel dt_le a l -> HdRel dt_le a (insert x l).
Proof.
  intros Hax Hal. destruct l as [| z l]; simpl.
  - now constructor.
  - inversion_clear Hal. destruct (dt_compare x z); now constructor.
Qed.

Lemma insert_Sorted (x : A) (l : list A) :
  Sorted dt_le l -> Sorted dt_le (insert x l).
Proof.
  induction 1 as [| z l Hs IH Hd]; simpl.
  - repeat constructor.
  - destruct (dt_compare x z) eqn:E.
    + constructor; [now constructor | constructor; unfold dt_le; congruence].
    + constructor; [now constructor | constructor; unfold dt_le; congruence].
    + constructor; [exact IH | ].
      apply insert_HdRel; [ | exact Hd].
      apply dt_le_cases. right. now apply dt_gt_lt.
Qed.

Lemma sort_Sorted (l : list A) : Sorted dt_le (sort l).
Proof.
  induction l as [| x l IH]; simpl.
  - constructor.
  - now apply insert_Sorted.
Qed.
End UniqueFacts.

Section DedupFacts.
Context {A : Type} {D : DType A} {OK : DTypeOk D}.

Lemma dedup_cons2 (x y : A) (l : list A) :
  dedup (x :: y :: l) =
  if dt_eqb x y then dedup (y :: l) else x :: dedup (y :: l).
Proof. reflexivity. Qed.

Lemma dedup_In (a : A) (l : list A) : In a (dedup l) <-> In a l.
Proof.
  induction l as [| x l IH].
  - simpl. tauto.
  - destruct l as [| y l].
    + simpl. tauto.
    + rewrite dedup_cons2. destruct (dt_eqb x y) eqn:E.
      * apply dt_eqb_eq in E. subst y. rewrite IH. simpl. tauto.
      * change (In a (x :: dedup (y :: l))) with (x = a \/ In a (dedup (y :: l))).
        rewrite IH. simpl. tauto.
Qed.

Lemma dedup_hd (l : list A) (x : A) : exists t, dedup (x :: l) = x :: t.
Proof.
  revert x. induction l as [| y l IH]; intros x.
  - exists []. reflexivity.
  - rewrite dedup_cons2. destruct (dt_eqb x y) eqn:E.
    + apply dt_eqb_eq in E. subst y. apply IH.
    + eexists. reflexivity.
Qed.

Lemma dedup_HdRel (R : A -> A -> Prop) (a : A) (l : list A) :
  HdRel R a l -> HdRel R a (dedup l).
Proof.
  destruct l as [| x l]; intros H.
  - constructor.
  - destruct (dedup_hd l x) as [t ->]. inversion_clear H. now constructor.
Qed.

Lemma dedup_Sorted (l : list A) : Sorted dt_le l -> Sorted dt_lt (dedup l).
Proof.
  induction 1 as [| x l Hs IH Hd].
  - constructor.
  - destruct l as [| y l].
    + repeat constructor.
    + rewrite dedup_cons2. destruct (dt_eqb x y) eqn:E.
      * exact IH.
      * constructor; [exact IH | ].
        apply dedup_HdRel. constructor.
        inversion_clear Hd. apply dt_eqb_neq in E.
        apply dt_le_cases in H. tauto.
Qed.

Lemma dt_lt_Transitive : Transitive (dt_lt (A := A)).
Proof. intros x y z. apply dt_lt_trans. Qed.

Lemma unique_StronglySorted (l : list A) : StronglySorted dt_lt (unique l).
Proof.
  apply Sorted_StronglySorted; [exact dt_lt_Transitive | ].
  apply dedup_Sorted, sort_Sorted.
Qed.

Lemma unique_In (a : A) (l : list A) : In a (unique l) <-> In a l.
Proof. unfold unique. now rewrite dedup_In, sort_In. Qed.

Lemma StronglySorted_lt_NoDup (l : list A) : StronglySorted dt_lt l -> NoDup l.
Proof.
  induction 1 as [| x l Hs IH Hall]; constructor; auto.
  intros Hin. rewrite Forall_forall in Hall.
  exact (dt_lt_irrefl (Hall x Hin)).
Qed.

Lemma unique_NoDup (l : list A) : NoDup (unique l).
Proof. apply StronglySorted_lt_NoDup, unique_StronglySorted. Qed.

(** Two strictly increasing lists with the same elements are the same list. *)
Lemma StronglySorted_lt_ext (l1 l2 : list A) :
  StronglySorted dt_lt l1 -> StronglySorted dt_lt l2 ->
  (forall a, In a l1 <-> In a l2) -> l1 = l2.
Proof.
  intros H1. revert l2. induction H1 as [| x l1 Hs1 IH Hall1]; intros l2 H2 Hin.
  - destruct l2 as [| y l2]; [reflexivity | ].
    exfalso. apply (Hin y). now left.
  - destruct H2 as [| y l2 Hs2 Hall2].
    + exfalso. apply (Hin x). now left.
    + rewrite Forall_forall in Hall1, Hall2.
      assert (Hxy : x = y).
      { destruct (proj1 (Hin x) (or_introl eq_refl)) as [E | Hx2]; [auto | ].
        destruct (proj2 (Hin y) (or_introl eq_refl)) as [E | Hy1]; [auto | ].
        exfalso. exact (dt_lt_asym (Hall1 y Hy1) (Hall2 x Hx2)). }
      subst y. f_equal. apply IH; [exact Hs2 | ].
      intros a. split; intros Ha.
      * destruct (proj1 (Hin a) (or_intror Ha)) as [E | Ha2]; [ | exact Ha2].
        subst a. exfalso. exact (dt_lt_irrefl (Hall1 x Ha)).
      * destruct (proj2 (Hin a) (or_intror Ha)) as [E | Ha1]; [ | exact Ha1].
        subst a. exfalso. exact (dt_lt_irrefl (Hall2 x Ha)).
Qed.

(** [unique] keeps one copy of every value. *)
Lemma unique_scalar_count (l : list A) :
  List.length (unique l) =
  List.length (nodup scalar_eq_dec (map dt_scalar l)).
Proof.
  rewrite <- (length_map dt_scalar (unique l)).
  apply Permutation_length, NoDup_Permutation.
  - apply Finite.Injective_map_NoDup; [ | apply unique_NoDup].
    intros x y. apply dt_scalar_inj.
  - apply NoDup_nodup.
  - intros s. rewrite nodup_In, !in_map_iff.
    split; intros [x [E Hx]]; exists x; split; auto; now apply unique_In.
Qed.
End DedupFacts.

(** ** Label codes *)

Section IndexFacts.
Context {A : Type} {D : DType A} {OK : DTypeOk D}.

Lemma index_of_lt (x : A) (cs : list A) :
  In x cs -> (index_of x cs < List.length cs)%nat.
Proof.
  induction cs as [| c cs IH]; simpl; [tauto | ].
  intros [E | Hin].
  - subst c. rewrite dt_eqb_refl. lia.
  - destruct (dt_eqb x c); [lia | ]. specialize (IH Hin). lia.
Qed.

Lemma index_of_nth (x d : A) (cs : list A) :
  In x cs -> nth (index_of x cs) cs d = x.
Proof.
  induction cs as [| c cs IH]; simpl; [tauto | ].
  intros Hin. destruct (dt_eqb x c) eqn:E.
  - apply dt_eqb_eq in E. auto.
  - apply dt_eqb_neq in E. destruct Hin as [E' | Hin]; [congruence | auto].
Qed.

Lemma index_of_nth_NoDup (cs : list A) (d : A) :
  NoDup cs ->
  forall j, (j < List.length cs)%nat -> index_of (nth j cs d) cs = j.
Proof.
  induction 1 as [| c cs Hnotin Hnd IH]; simpl; intros j Hj; [lia | ].
  destruct j as [| j].
  - now rewrite dt_eqb_refl.
  - assert (Hin : In (nth j cs d) cs) by (apply nth_In; lia).
    destruct (dt_eqb (nth j cs d) c) eqn:E.
    + apply dt_eqb_eq in E. congruence.
    + f_equal. apply IH. lia.
Qed.

(** The codes of a label sequence are exactly 0 .. K-1, K the number of
    distinct labels. *)
Lemma inverse_In (z : Z) (l : list A) :
  In z (inverse l) <->
  exists j, (j < List.length (unique l))%nat /\ z = Z.of_nat j.
Proof.
  unfold inverse. rewrite in_map_iff. split.
  - intros [x [E Hx]]. exists (index_of x (unique l)). split; [ | auto].
    apply index_of_lt. now apply unique_In.
  - intros [j [Hj E]]. destruct (unique l) as [| d u] eqn:Eu; [simpl in Hj; lia | ].
    rewrite <- Eu in *. exists (nth j (unique l) d). split.
    + rewrite index_of_nth_NoDup; auto. apply unique_NoDup.
    + apply unique_In, nth_In, Hj.
Qed.

(** The indicator row of the code of [x] reads, class by class, whether the
    class is [x]. *)
Lemma onehot_row_index_of (x : A) (cs : list A) :
  NoDup cs ->
  forall s,
    onehot_row (map Z.of_nat (seq s (List.length cs)))
               (Z.of_nat (s + index_of x cs)) =
    map (fun c => if dt_eqb x c then f64_one else f64_zero) cs.
Proof.
  unfold onehot_row.
  induction 1 as [| c cs Hnotin Hnd IH]; intros s; [reflexivity | ].
  simpl. destruct (dt_eqb x c) eqn:E.
  - apply dt_eqb_eq in E. subst c.
    replace (Z.of_nat s =? Z.of_nat (s + 0)) with true
      by (symmetry; apply Z.eqb_eq; lia).
    f_equal. rewrite map_map.
    transitivity (map (fun _ : nat => f64_zero) (seq (S s) (List.length cs))).
    + apply map_ext_in. intros k Hk. apply in_seq in Hk.
      destruct (Z.eqb_spec (Z.of_nat k) (Z.of_nat (s + 0))); [lia | reflexivity].
    + transitivity (map (fun _ : A => f64_zero) cs).
      * rewrite !map_const. now rewrite length_seq.
      * apply map_ext_in. intros c Hc.
        destruct (dt_eqb x c) eqn:E'; [ | reflexivity].
        apply dt_eqb_eq in E'. congruence.
  - replace (Z.of_nat s =? Z.of_nat (s + S (index_of x cs))) with false
      by (symmetry; apply Z.eqb_neq; lia).
    f_equal. replace (s + S (index_of x cs))%nat with (S s + index_of x cs)%nat
      by lia.
    apply IH.
Qed.
End IndexFacts.

Lemma seq_Z_StronglySorted (n s : nat) :
  StronglySorted (@dt_lt Z dtype_int) (map Z.of_nat (seq s n)).
Proof.
  revert s. induction n as [| n IH]; intros s; simpl; constructor.
  - apply IH.
  - apply Forall_forall. intros z Hz.
    apply in_map_iff in Hz. destruct Hz as [k [<- Hk]]. apply in_seq in Hk.
    unfold dt_lt. simpl. apply Z.compare_lt_iff. lia.
Qed.

Section CodeFacts.
Context {A : Type} {D : DType A} {OK : DTypeOk D}.

Lemma unique_inverse (l : list A) :
  @unique Z dtype_int (inverse l) =
  map Z.of_nat (seq 0 (List.length (unique l))).
Proof.
  apply (StronglySorted_lt_ext (D := dtype_int)).
  - apply unique_StronglySorted.
  - apply seq_Z_StronglySorted.
  - intros z. rewrite (unique_In (D := dtype_int)), inverse_In, in_map_iff.
    split.
    + intros [j [Hj ->]]. exists j. split; [reflexivity | ].
      apply in_seq. lia.
    + intros [j [<- Hj]]. apply in_seq in Hj. exists j. split; [lia | reflexivity].
Qed.

(** The indicator matrix built from the codes is the indicator matrix of the
    labels over their sorted distinct values. *)
Lemma onehot_inverse (l : list A) :
  flat_map (onehot_row (@unique Z dtype_int (inverse l))) (inverse l) =
  flat_map
    (fun x => map (fun c => if dt_eqb x c then f64_one else f64_zero) (unique l))
    l.
Proof.
  rewrite unique_inverse. unfold inverse.
  generalize (unique_NoDup l). generalize (unique l) as cs. intros cs Hnd.
  induction l as [| x l IH]; simpl; [reflexivity | ].
  rewrite IH. f_equal.
  exact (onehot_row_index_of x Hnd 0).
Qed.

Lemma indicator_scalar (x c : A) :
  indicator (dt_scalar x) (dt_scalar c) =
  SFloat (if dt_eqb x c then f64_one else f64_zero).
Proof.
  unfold indicator. destruct (scalar_eq_dec (dt_scalar x) (dt_scalar c)) as [E | N].
  - apply dt_scalar_inj in E. subst c. now rewrite dt_eqb_refl.
  - destruct (dt_eqb x c) eqn:E; [ | reflexivity].
    apply dt_eqb_eq in E. congruence.
Qed.

Lemma indicator_rows_scalar (cs l : list A) :
  indicator_rows (map dt_scalar cs) (map dt_scalar l) =
  map SFloat
    (flat_map
       (fun x => map (fun c => if dt_eqb x c then f64_one else f64_zero) cs) l).
Proof.
  unfold indicator_rows. induction l as [| x l IH]; simpl; [reflexivity | ].
  rewrite map_app, <- IH. f_equal.
  rewrite !map_map. apply map_ext. intros c. apply indicator_scalar.
Qed.

Lemma inverse_length (l : list A) : List.length (inverse l) = List.length l.
Proof. unfold inverse. apply length_map. Qed.

Lemma StronglySorted_scalar (l : list A) :
  StronglySorted dt_lt l -> StronglySorted scalar_lt (map dt_scalar l).
Proof.
  induction 1 as [| x l Hs IH Hall]; simpl; constructor; auto.
  rewrite Forall_forall in *. intros s Hs'.
  apply in_map_iff in Hs'. destruct Hs' as [y [<- Hy]].
  apply dt_scalar_lt. auto.
Qed.
End CodeFacts.

(** ** The one-hot transform *)

Section OneHotFacts.
Context {A : Type} {D : DType A} {OK : DTypeOk D}.

Lemma onehot_of_codes (xs : list A) :
  xs <> [] ->
  OneHotEncoder_fit_transform (inverse xs) =
  Ok {| shape := [List.length xs; List.length (unique xs)];
        buf := BFloat
                 (flat_map
                    (fun x =>
                       map (fun c => if dt_eqb x c then f64_one else f64_zero)
                           (unique xs))
                    xs) |}.
Proof.
  intros Hne. unfold OneHotEncoder_fit_transform.
  destruct (inverse xs) as [| z zs] eqn:E.
  - destruct xs; [congruence | discriminate].
  - rewrite <- E. rewrite onehot_inverse, unique_inverse.
    now rewrite length_map, length_seq, inverse_length.
Qed.
End OneHotFacts.

Lemma nonempty_of_length {A} (xs : list A) (n : nat) :
  List.length xs = n -> n <> 0%nat -> xs <> [].
Proof. intros <- H ->. now apply H. Qed.

(** A non-empty 1-d array of sortable labels is encoded, and the encoding
    lists, row by row, the indicators of each label over the sorted distinct
    labels; squeezing then drops the axes of length one. *)
Lemma predict_function_transformer_1d (output : ndarray) (n : nat) :
  shape output = [n] -> well_formed output -> comparable output ->
  n <> 0%nat ->
  exists out,
    predict_function_transformer output = Ok out /\
    shape out =
      filter (fun d => negb (d =? 1)%nat)
             [n; List.length (classes_of output)] /\
    elements out = indicator_rows (classes_of output) (elements output).
Proof.
  destruct output as [sh b]. unfold well_formed, comparable, classes_of, elements.
  simpl. intros -> Hwf Hcmp Hn. simpl in Hwf. rewrite Nat.mul_1_r in Hwf.
  unfold predict_function_transformer, LabelEncoder_fit_transform, np_unique.
  destruct b as [xs | xs | xs | k]; simpl in *; [ | | | tauto].
  - rewrite (onehot_of_codes (nonempty_of_length Hwf Hn)). simpl.
    eexists. split; [reflexivity | ]. simpl.
    rewrite length_map, Hwf. split; [reflexivity | ].
    symmetry. exact (indicator_rows_scalar (D := dtype_str) _ _).
  - rewrite (onehot_of_codes (D := dtype_int) (nonempty_of_length Hwf Hn)). simpl.
    eexists. split; [reflexivity | ]. simpl.
    rewrite length_map, Hwf. split; [reflexivity | ].
    symmetry. exact (indicator_rows_scalar (D := dtype_int) _ _).
  - rewrite (onehot_of_codes (D := dtype_float) (nonempty_of_length Hwf Hn)). simpl.
    eexists. split; [reflexivity | ]. simpl.
    rewrite length_map, Hwf. split; [reflexivity | ].
    symmetry. exact (indicator_rows_scalar (D := dtype_float) _ _).
Qed.

Lemma classes_of_sorted (a : ndarray) :
  StronglySorted scalar_lt (classes_of a).
Proof.
  unfold classes_of, np_unique, elements. destruct (buf a) as [xs | xs | xs | k]; simpl.
  - exact (StronglySorted_scalar (D := dtype_str) (unique_StronglySorted xs)).
  - exact (StronglySorted_scalar (D := dtype_int) (unique_StronglySorted xs)).
  - exact (StronglySorted_scalar (D := dtype_float) (unique_StronglySorted xs)).
  - destruct (k <=? 1)%nat eqn:E; [ | constructor].
    apply Nat.leb_le in E. destruct k as [| [| k]]; simpl; try lia;
      repeat constructor.
Qed.

Lemma classes_of_In (a : ndarray) (c : scalar) :
  comparable a -> (In c (classes_of a) <-> In c (elements a)).
Proof.
  unfold comparable, classes_of, np_unique, elements.
  destruct (buf a) as [xs | xs | xs | k]; simpl; intros H; [ | | | tauto];
    rewrite !in_map_iff.
  - split; intros [x [E Hx]]; exists x; split; auto;
      now apply (unique_In (D := dtype_str)).
  - split; intros [x [E Hx]]; exists x; split; auto;
      now apply (unique_In (D := dtype_int)).
  - split; intros [x [E Hx]]; exists x; split; auto;
      now apply (unique_In (D := dtype_float)).
Qed.

(** ** Running a method *)

(** The report reads the instance and leaves it as it found it. *)
Lemma model_report_state predict (examples : ndarray) (self : Model) :
  snd (model_report predict examples self) = self.
Proof.
  unfold model_report. simpl. unfold M_bind, get, lift. simpl.
  destruct (isinstance_ndarray (self_examples self)); simpl; [ | reflexivity].
  destruct (predict examples); simpl; [ | reflexivity].
  destruct (getitem0 examples); simpl; [ | reflexivity].
  destruct (getitem0 a); reflexivity.
Qed.

(** Logging a list of reports succeeds and only extends the log. *)
Lemma for_each_log (reports : list report) (self : Model) :
  for_each reports (fun report => modify (log (LogDebug report))) self =
  (Ok tt,
   {| _log_level := _log_level self;
      logger := (logger self ++ map LogDebug reports)%list;
      examples := examples self;
      model_type := model_type self;
      output_var_type := output_var_type self;
      output_shape := output_shape self;
      n_classes := n_classes self;
      input_shape := input_shape self;
      probability := probability self;
      formatter := formatter self |}).
Proof.
  revert self. induction reports as [| r reports IH]; intros self.
  - simpl. unfold M_ret. rewrite app_nil_r. now destruct self.
  - simpl. unfold M_bind, modify. rewrite IH. simpl.
    now rewrite <- app_assoc.
Qed.

Lemma epilogue_state predict (batch : ndarray) (self : Model) :
  exists entries,
    snd (epilogue predict batch self) =
    {| _log_level := _log_level self;
       logger := (logger self ++ entries)%list;
       examples := examples self;
       model_type := model_type self;
       output_var_type := output_var_type self;
       output_shape := output_shape self;
       n_classes := n_classes self;
       input_shape := input_shape self;
       probability := probability self;
       formatter := return_transformer_func self |}.
Proof.
  unfold epilogue. simpl. unfold M_bind at 1. unfold get.
  unfold M_bind at 1. unfold modify at 1. unfold M_bind.
  pose proof (model_report_state predict batch
                (set_formatter (return_transformer_func self) self)) as Hs.
  destruct (model_report predict batch
              (set_formatter (return_transformer_func self) self))
    as [[reports | e] s1]; simpl in Hs; subst s1.
  - rewrite for_each_log. simpl. eexists. reflexivity.
  - simpl. exists []. now rewrite app_nil_r.
Qed.

(** What a run looks like once the inference block [body] is followed by the
    closing steps: the block succeeded, and the closing steps added to the
    log and cached the formatter chosen from the attributes it left. *)
Lemma bind_epilogue (body : M unit) predict (batch : ndarray)
    (self self' : Model) :
  M_bind body (fun _ => epilogue predict batch) self = (Ok tt, self') ->
  exists s1 entries,
    body self = (Ok tt, s1) /\
    self' =
    {| _log_level := _log_level s1;
       logger := (logger s1 ++ entries)%list;
       examples := examples s1;
       model_type := model_type s1;
       output_var_type := output_var_type s1;
       output_shape := output_shape s1;
       n_classes := n_classes s1;
       input_shape := input_shape s1;
       probability := probability s1;
       formatter := return_transformer_func s1 |}.
Proof.
  unfold M_bind. destruct (body self) as [[[] | e] s1]; [ | discriminate].
  intros H. destruct (epilogue_state predict batch s1) as [entries Hs].
  rewrite H in Hs. simpl in Hs. exists s1, entries. auto.
Qed.

(** On sortable elements [np.unique] succeeds and has as many entries as the
    array has distinct values. *)
Lemma np_unique_len (a : ndarray) :
  comparable a ->
  exists uniq, np_unique a = Ok uniq /\ np_len uniq = Ok (distinct_count a).
Proof.
  unfold comparable, np_unique, distinct_count, elements.
  destruct (buf a) as [xs | xs | xs | k]; simpl; intros H; [ | | | tauto];
    eexists; (split; [reflexivity | ]); unfold np_len; simpl; f_equal.
  - exact (unique_scalar_count (D := dtype_str) xs).
  - exact (unique_scalar_count (D := dtype_int) xs).
  - exact (unique_scalar_count (D := dtype_float) xs).
Qed.

(** A first element of string or integer type comes from a sortable array. *)
Lemma first_element_comparable (a : ndarray) (first : pyval) :
  getitem0 a = Ok first ->
  return_data_type first = ot_string \/ return_data_type first = ot_int ->
  comparable a.
Proof.
  unfold getitem0, comparable. destruct (shape a) as [| [| d] [| d' sh]];
    try discriminate.
  - destruct (buf a) as [xs | xs | xs | k]; simpl; auto.
    destruct k; simpl; [discriminate | ].
    intros H. injection H as <-. simpl. intros [H | H]; discriminate.
  - intros H. injection H as <-. simpl. intros [H | H]; discriminate.
Qed.

(** Run [check_output_signature] in [H] up to the inference block, under a
    batch that passes the guard and a prediction [Hp] that returns. *)
Ltac run_to_inference H Hp :=
  unfold check_output_signature in H;
  destruct (np_any _); [ | discriminate H];
  cbv beta iota delta [negb] in H;
  unfold bind at 1 in H; cbv beta iota delta [M_monad] in H;
  unfold M_bind at 1 in H; unfold call, lift in H; rewrite Hp in H;
  unfold bind at 1 in H; cbv beta iota delta [M_monad] in H;
  unfold M_bind at 1 in H; unfold modify at 1 in H;
  unfold bind at 1 in H; cbv beta iota delta [M_monad] in H;
  unfold M_bind at 1 in H; unfold modify at 1 in H;
  unfold bind at 1 in H; cbv beta iota delta [M_monad] in H.

(** ** Output-signature inference *)

(** C1: when the prediction is a 1-d array whose first element is a string or
    an integer, a successful [check_output_signature] leaves
    [model_type = classifier], [probability = False] and [n_classes] equal to
    the number of distinct values among all the outputs. *)
Theorem check_output_signature_labels predict (examples outputs : ndarray)
    (self self' : Model) (n : nat) (first : pyval) :
  predict examples = Ok outputs ->
  shape outputs = [n] ->
  getitem0 outputs = Ok first ->
  return_data_type first = ot_string \/ return_data_type first = ot_int ->
  check_output_signature predict examples self = (Ok tt, self') ->
  model_type self' = classifier /\
  probability self' = PBool false /\
  n_classes self' = Known (distinct_count outputs).
Proof.
  intros Hp Hsh Hget Hty Hrun.
  destruct (np_unique_len outputs (first_element_comparable outputs Hget Hty))
    as [uniq [Huniq Hlen]].
  run_to_inference Hrun Hp.
  apply bind_epilogue in Hrun. destruct Hrun as [s1 [entries [Hbody ->]]].
  rewrite Hsh in Hbody. simpl in Hbody.
  unfold M_bind, modify, get, lift in Hbody. rewrite Hget in Hbody.
  simpl in Hbody.
  assert (Hb : output_types_eqb (return_data_type first) ot_string
               || output_types_eqb (return_data_type first) ot_int = true)
    by (destruct Hty as [-> | ->]; reflexivity).
  rewrite Hb, Huniq, Hlen in Hbody. injection Hbody as <-. simpl. auto.
Qed.

Lemma check_output_signature_labels_witness :
  model_type (snd run_labels) = classifier /\
  probability (snd run_labels) = PBool false /\
  n_classes (snd run_labels) = Known (distinct_count sample_labels).
Proof.
  refine (@check_output_signature_labels predict_labels sample_examples
            sample_labels (Model_init 30) (snd run_labels) 3%nat
            (Scalar (SStr "dog")) _ _ _ _ _).
  - reflexivity.
  - reflexivity.
  - reflexivity.
  - left. reflexivity.
  - vm_compute. reflexivity.
Defined.

(** C3: when the prediction is a 1-d array whose first element is a float, a
    successful [check_output_signature] leaves [model_type = regressor],
    [n_classes = 1], [probability = not_applicable], and has called
    [logger.warn]. *)
Theorem check_output_signature_floats predict (examples outputs : ndarray)
    (self self' : Model) (n : nat) (first : pyval) :
  predict examples = Ok outputs ->
  shape outputs = [n] ->
  getitem0 outputs = Ok first ->
  return_data_type first = ot_float ->
  check_output_signature predict examples self = (Ok tt, self') ->
  model_type self' = regressor /\
  n_classes self' = Known 1%nat /\
  probability self' = PNotApplicable /\
  exists msg entries,
    logger self' = (logger self ++ LogWarn msg :: entries)%list.
Proof.
  intros Hp Hsh Hget Hty Hrun.
  run_to_inference Hrun Hp.
  apply bind_epilogue in Hrun. destruct Hrun as [s1 [entries [Hbody ->]]].
  rewrite Hsh in Hbody. simpl in Hbody.
  unfold M_bind, modify, get, lift in Hbody. rewrite Hget in Hbody.
  simpl in Hbody. rewrite Hty in Hbody. simpl in Hbody.
  injection Hbody as <-. simpl. repeat split.
  eexists. exists entries. rewrite <- app_assoc. reflexivity.
Qed.

Lemma check_output_signature_floats_witness :
  model_type (snd run_values) = regressor /\
  n_classes (snd run_values) = Known 1%nat /\
  probability (snd run_values) = PNotApplicable /\
  exists msg entries,
    logger (snd run_values) =
    (logger (Model_init 30) ++ LogWarn msg :: entries)%list.
Proof.
  refine (@check_output_signature_floats predict_values sample_examples
            sample_values (Model_init 30) (snd run_values) 2%nat
            (Scalar (SFloat f64_one)) _ _ _ _ _).
  - reflexivity.
  - reflexivity.
  - reflexivity.
  - reflexivity.
  - vm_compute. reflexivity.
Defined.

(** C2: when the prediction is a 2-d array of shape (N, K), a successful
    [check_output_signature] leaves [model_type = classifier],
    [n_classes = K], and [probability = True] exactly when element [0][0] is
    a float, [probability = False] otherwise. *)
Theorem check_output_signature_matrix predict (examples outputs : ndarray)
    (self self' : Model) (N K : nat) (first : pyval) :
  predict examples = Ok outputs ->
  shape outputs = [N; K] ->
  result_bind (getitem0 outputs) pyval_getitem0 = Ok first ->
  check_output_signature predict examples self = (Ok tt, self') ->
  model_type self' = classifier /\
  n_classes self' = Known K /\
  (return_data_type first = ot_float -> probability self' = PBool true) /\
  (return_data_type first <> ot_float -> probability self' = PBool false).
Proof.
  intros Hp Hsh Hget Hrun.
  run_to_inference Hrun Hp.
  apply bind_epilogue in Hrun. destruct Hrun as [s1 [entries [Hbody ->]]].
  rewrite Hsh in Hbody. simpl in Hbody.
  unfold M_bind, modify, get, lift in Hbody.
  destruct (getitem0 outputs) as [row | e]; simpl in Hget; [ | discriminate].
  rewrite Hget in Hbody. simpl in Hbody.
  injection Hbody as <-. simpl. repeat split.
  - intros ->. reflexivity.
  - intros Hne. destruct (return_data_type first); simpl; congruence.
Qed.

Lemma check_output_signature_matrix_witness :
  model_type (snd run_scores) = classifier /\
  n_classes (snd run_scores) = Known 2%nat /\
  (return_data_type (Scalar (SFloat f64_zero)) = ot_float ->
   probability (snd run_scores) = PBool true) /\
  (return_data_type (Scalar (SFloat f64_zero)) <> ot_float ->
   probability (snd run_scores) = PBool false).
Proof.
  refine (@check_output_signature_matrix predict_scores sample_examples
            sample_scores (Model_init 30) (snd run_scores) 2%nat 2%nat
            (Scalar (SFloat f64_zero)) _ _ _ _).
  - reflexivity.
  - reflexivity.
  - reflexivity.
  - vm_compute. reflexivity.
Defined.

(** C6, as the code has it: when the prediction has three axes or more and
    the batch passes the guard, [check_output_signature] raises a
    [ValueError]; [model_type], [output_var_type], [n_classes], [probability]
    and [formatter] keep their prior values, while [input_shape] and
    [output_shape] already hold the shapes of this call. *)
Theorem check_output_signature_rank3 predict (examples outputs : ndarray)
    (self : Model) :
  np_any examples = true ->
  predict examples = Ok outputs ->
  (3 <= List.length (shape outputs))%nat ->
  exists msg self',
    check_output_signature predict examples self =
      (Raise (ValueError msg), self') /\
    model_type self' = model_type self /\
    output_var_type self' = output_var_type self /\
    n_classes self' = n_classes self /\
    probability self' = probability self /\
    formatter self' = formatter self /\
    logger self' = logger self /\
    input_shape self' = Known (shape examples) /\
    output_shape self' = Known (shape outputs).
Proof.
  intros Hany Hp Hrank.
  unfold check_output_signature. rewrite Hany. simpl.
  unfold M_bind, call, lift, modify. rewrite Hp.
  destruct (shape outputs) as [| a [| b [| c sh]]] eqn:Hsh;
    simpl in Hrank; try lia.
  simpl. do 2 eexists. split; [reflexivity | ].
  simpl. repeat split.
Qed.

Lemma check_output_signature_rank3_witness :
  exists msg self',
    check_output_signature predict_cube sample_examples (Model_init 30) =
      (Raise (ValueError msg), self') /\
    model_type self' = model_type (Model_init 30) /\
    output_var_type self' = output_var_type (Model_init 30) /\
    n_classes self' = n_classes (Model_init 30) /\
    probability self' = probability (Model_init 30) /\
    formatter self' = formatter (Model_init 30) /\
    logger self' = logger (Model_init 30) /\
    input_shape self' = Known (shape sample_examples) /\
    output_shape self' = Known (shape sample_cube).
Proof.
  refine (@check_output_signature_rank3 predict_cube sample_examples
            sample_cube (Model_init 30) _ _ _).
  - reflexivity.
  - reflexivity.
  - simpl. lia.
Defined.

(** C6, as the spec has it, fails: after the failed call on a fresh instance
    [input_shape] and [output_shape] no longer hold their prior value. *)
Lemma check_output_signature_rank3_changes_shapes :
  fst run_cube = Raise (ValueError "Unsupported model type, output dim = 3") /\
  List.length (shape sample_cube) = 3%nat /\
  input_shape (snd run_cube) <> input_shape (Model_init 30) /\
  output_shape (snd run_cube) <> output_shape (Model_init 30).
Proof.
  vm_compute. repeat split; discriminate.
Qed.

(** ** The guard on the batch *)

(** A batch without a truthy element is refused before anything is assigned. *)
Lemma check_output_signature_guard predict (batch : ndarray) (self : Model) :
  np_any batch = false ->
  check_output_signature predict batch self =
  (Raise (ModelError "Examples have not been provided. Cannot check outputs"),
   self).
Proof.
  intros H. unfold check_output_signature. rewrite H. reflexivity.
Qed.

(** An empty batch has no truthy element. *)
Lemma np_any_empty (batch : ndarray) :
  buf_len (buf batch) = 0%nat -> np_any batch = false.
Proof.
  unfold np_any. destruct (buf batch) as [xs | xs | xs | k]; simpl;
    try reflexivity; intros H; apply length_zero_iff_nil in H; now subst xs.
Qed.

(** X1: the empty batch raises [ModelError] and leaves every attribute as it
    was. *)
Lemma check_output_signature_empty predict (batch : ndarray) (self : Model) :
  buf_len (buf batch) = 0%nat ->
  check_output_signature predict batch self =
  (Raise (ModelError "Examples have not been provided. Cannot check outputs"),
   self).
Proof.
  intros H. apply check_output_signature_guard, np_any_empty, H.
Qed.

(** C5, where the code departs from it: a batch that is not empty and holds
    only zeros is refused with the [ModelError] of the empty batch, whatever
    [predict] is. *)
Theorem check_output_signature_zero_batch predict (self : Model) :
  well_formed sample_zeros /\
  buf_len (buf sample_zeros) = 2%nat /\
  check_output_signature predict sample_zeros self =
  (Raise (ModelError "Examples have not been provided. Cannot check outputs"),
   self).
Proof.
  repeat split.
Qed.

(** ** The cached formatter *)

(** X3: after a successful inference on a 2-d prediction the cached formatter
    is the identity when element [0][0] is a float and the one-hot transform
    otherwise. *)
Lemma check_output_signature_matrix_formatter predict
    (batch outputs : ndarray) (self self' : Model) (N K : nat) (first : pyval) :
  predict batch = Ok outputs ->
  shape outputs = [N; K] ->
  result_bind (getitem0 outputs) pyval_getitem0 = Ok first ->
  check_output_signature predict batch self = (Ok tt, self') ->
  formatter self' =
  if output_types_eqb (return_data_type first) ot_float
  then identity_formatter
  else predict_function_transformer.
Proof.
  intros Hp Hsh Hget Hrun.
  run_to_inference Hrun Hp.
  apply bind_epilogue in Hrun. destruct Hrun as [s1 [entries [Hbody ->]]].
  rewrite Hsh in Hbody. simpl in Hbody.
  unfold M_bind, modify, get, lift in Hbody.
  destruct (getitem0 outputs) as [row | e]; simpl in Hget; [ | discriminate].
  rewrite Hget in Hbody. simpl in Hbody.
  injection Hbody as <-. simpl. unfold return_transformer_func. simpl.
  now destruct (output_types_eqb (return_data_type first) ot_float).
Qed.

(** C7, where the code departs from it: for the prediction [[0, 1], [1, 0]]
    the call succeeds with [probability = False], and the formatter it caches
    is the one-hot transform, which refuses the raw 2-d output instead of
    returning it. *)
Theorem check_output_signature_votes_formatter :
  fst run_votes = Ok tt /\
  probability (snd run_votes) = PBool false /\
  formatter (snd run_votes) = predict_function_transformer /\
  formatter (snd run_votes) sample_votes = Raise (ValueError "bad input shape") /\
  identity_formatter sample_votes = Ok sample_votes.
Proof.
  repeat split.
Qed.

(** C4, where the code departs from it: squeezing drops the only column of a
    single-class encoding, so the result for the labels [apple, apple] is
    the 1-d array [1., 1.], and the result for a single label has no axis at
    all. *)
Theorem predict_function_transformer_single_class :
  predict_function_transformer sample_apples =
    Ok {| shape := [2]%nat; buf := BFloat [f64_one; f64_one] |} /\
  predict_function_transformer {| shape := [1]%nat; buf := BStr ["apple"] |} =
    Ok {| shape := []; buf := BFloat [f64_one] |}.
Proof.
  split; reflexivity.
Qed.

(** ** Choosing the formatter *)

Lemma predict_function_transformer_not_identity :
  predict_function_transformer <> identity_formatter.
Proof.
  intros E.
  apply (f_equal (fun f => f sample_votes)) in E. discriminate E.
Qed.

(** C8: [return_transformer_func] only reads [model_type] and [probability];
    it returns the one-hot transform exactly when [model_type = classifier]
    and [probability = False], and the identity in every other state, the
    unknown sentinels included. *)
Theorem return_transformer_func_selects (self : Model) :
  (return_transformer_func self = predict_function_transformer <->
   model_type self = classifier /\ probability self = PBool false) /\
  (return_transformer_func self = identity_formatter <->
   ~ (model_type self = classifier /\ probability self = PBool false)) /\
  (forall other : Model,
     model_type other = model_type self ->
     probability other = probability self ->
     return_transformer_func other = return_transformer_func self).
Proof.
  pose proof predict_function_transformer_not_identity as Hne.
  unfold return_transformer_func. split; [ | split].
  - split.
    + intros H.
      destruct (model_type self), (probability self) as [[|] | |]; simpl in H;
        try (symmetry in H; contradiction); split; reflexivity.
    + intros [-> ->]. reflexivity.
  - split.
    + intros H [Hm Hp]. rewrite Hm, Hp in H. simpl in H. contradiction.
    + intros Hnot.
      destruct (model_type self), (probability self) as [[|] | |]; simpl;
        try reflexivity.
      exfalso. apply Hnot. split; reflexivity.
  - intros other -> ->. reflexivity.
Qed.

(** ** The column order of the one-hot transform *)

(** C9: the result of [predict_function_transformer] is determined by the
    label sequence, two calls on the same sequence give the same result, and
    its entries are the indicators of the labels over the strictly increasing
    sequence of their distinct values, one row per label. *)
Theorem predict_function_transformer_deterministic (output : ndarray)
    (n : nat) :
  shape output = [n] -> well_formed output -> comparable output ->
  (forall first second,
     predict_function_transformer output = first ->
     predict_function_transformer output = second -> first = second) /\
  StronglySorted scalar_lt (classes_of output) /\
  (forall c, In c (classes_of output) <-> In c (elements output)) /\
  (n <> 0%nat ->
   exists out,
     predict_function_transformer output = Ok out /\
     elements out = indicator_rows (classes_of output) (elements output)).
Proof.
  intros Hsh Hwf Hcmp. repeat split.
  - congruence.
  - apply classes_of_sorted.
  - now apply classes_of_In.
  - now apply classes_of_In.
  - intros Hn.
    destruct (predict_function_transformer_1d Hsh Hwf Hcmp Hn)
      as [out [Hrun [_ Hel]]].
    exists out. auto.
Qed.

Lemma predict_function_transformer_deterministic_witness :
  (forall first second,
     predict_function_transformer sample_labels = first ->
     predict_function_transformer sample_labels = second -> first = second) /\
  StronglySorted scalar_lt (classes_of sample_labels) /\
  (forall c, In c (classes_of sample_labels) <-> In c (elements sample_labels)) /\
  (3%nat <> 0%nat ->
   exists out,
     predict_function_transformer sample_labels = Ok out /\
     elements out =
     indicator_rows (classes_of sample_labels) (elements sample_labels)).
Proof.
  refine (@predict_function_transformer_deterministic sample_labels 3%nat
            _ _ _).
  - reflexivity.
  - reflexivity.
  - exact I.
Defined.

(** ** The report *)

(** C10, where the code departs from it: on a fresh instance, to which no
    examples are bound, [self.examples] is an ndarray, so the report calls
    [predict] and carries the example and output lines; on an empty batch
    reading its first row raises [IndexError]. *)
Theorem model_report_fresh_instance :
  isinstance_ndarray (examples (Model_init 30)) = true /\
  fst (model_report predict_echo sample_empty (Model_init 30)) =
    Raise IndexError /\
  fst (model_report predict_labels sample_examples (Model_init 30)) =
    Ok [ReportExample (Array {| shape := [2]%nat; buf := BInt [1; 2] |});
        ReportOutputs (Scalar (SStr "dog"));
        ReportModelType mt_unknown;
        ReportOutputVarType ot_unknown;
        ReportOutputShape Unknown;
        ReportNClasses Unknown;
        ReportInputShape Unknown;
        ReportProbability PUnknown].
Proof.
  repeat split.
Qed.

(** ** The shape of the one-hot encoding *)

Lemma scalar_lt_irrefl (x : scalar) : ~ scalar_lt x x.
Proof.
  destruct x as [s | z | f |]; simpl; try lia; try tauto.
  exact (StrictOrder_Irreflexive (R := String_as_OT.lt) s).
Qed.

Lemma classes_of_NoDup (a : ndarray) : NoDup (classes_of a).
Proof.
  pose proof (classes_of_sorted a) as Hs.
  induction Hs as [| x l Hs IH Hall]; constructor; auto.
  intros Hin. rewrite Forall_forall in Hall.
  exact (scalar_lt_irrefl x (Hall x Hin)).
Qed.

Lemma classes_of_count (a : ndarray) :
  comparable a -> List.length (classes_of a) = distinct_count a.
Proof.
  intros Hcmp. unfold distinct_count.
  apply Permutation_length, NoDup_Permutation.
  - apply classes_of_NoDup.
  - apply NoDup_nodup.
  - intros c. rewrite nodup_In. now apply classes_of_In.
Qed.

Lemma elements_length (a : ndarray) :
  List.length (elements a) = buf_len (buf a).
Proof.
  unfold elements. destruct (buf a); simpl;
    first [apply length_map | apply repeat_length].
Qed.

Lemma classes_of_length_le (a : ndarray) :
  comparable a -> (List.length (classes_of a) <= buf_len (buf a))%nat.
Proof.
  intros Hcmp. rewrite <- elements_length.
  apply NoDup_incl_length; [apply classes_of_NoDup | ].
  intros c. now apply classes_of_In.
Qed.

Lemma indicator_eq (x : scalar) : indicator x x = SFloat f64_one.
Proof.
  unfold indicator. destruct (scalar_eq_dec x x); congruence.
Qed.

Lemma indicator_neq (x c : scalar) :
  x <> c -> indicator x c = SFloat f64_zero.
Proof.
  unfold indicator. destruct (scalar_eq_dec x c); congruence.
Qed.

Lemma f64_zero_not_one : SFloat f64_zero <> SFloat f64_one.
Proof. discriminate. Qed.

Lemma indicator_zero_count (x : scalar) (classes : list scalar) :
  ~ In x classes ->
  count_occ scalar_eq_dec (map (indicator x) classes) (SFloat f64_one) = 0%nat.
Proof.
  induction classes as [| c cs IH]; [reflexivity | ].
  intros Hnot. cbn [map].
  rewrite indicator_neq by (intros ->; apply Hnot; now left).
  rewrite count_occ_cons_neq by exact f64_zero_not_one.
  apply IH. intros Hin. apply Hnot. now right.
Qed.

(** A row of indicators over distinct classes holds a single 1.0, under the
    class of its label, and 0.0 elsewhere. *)
Lemma indicator_row_one_hot (x : scalar) (classes : list scalar) :
  NoDup classes -> In x classes ->
  count_occ scalar_eq_dec (map (indicator x) classes) (SFloat f64_one) = 1%nat /\
  Forall (fun e => e = SFloat f64_one \/ e = SFloat f64_zero)
         (map (indicator x) classes) /\
  (forall j, (j < List.length classes)%nat ->
     (nth j (map (indicator x) classes) SNone = SFloat f64_one <->
      nth j classes SNone = x)).
Proof.
  intros Hnd Hin. split; [ | split].
  - induction Hnd as [| c cs Hnotin Hnd IH]; [destruct Hin | ].
    cbn [map]. destruct (scalar_eq_dec x c) as [E | N].
    + subst c. rewrite indicator_eq.
      rewrite count_occ_cons_eq by reflexivity.
      now rewrite indicator_zero_count.
    + rewrite indicator_neq by exact N.
      rewrite count_occ_cons_neq by exact f64_zero_not_one.
      apply IH. destruct Hin; [congruence | assumption].
  - apply Forall_forall. intros e He. apply in_map_iff in He.
    destruct He as [c [<- _]]. unfold indicator.
    destruct (scalar_eq_dec x c); auto.
  - intros j Hj.
    rewrite (nth_indep _ SNone (indicator x SNone))
      by (now rewrite length_map).
    rewrite map_nth. unfold indicator.
    destruct (scalar_eq_dec x (nth j classes SNone)) as [E | N].
    + split; auto.
    + split; [discriminate | congruence].
Qed.

(** X2: with two distinct labels or more the encoding is the 2-d indicator
    matrix: one row per label, one column per distinct value, and in every
    row a single 1.0, under the class of the label of that row. *)
Lemma predict_function_transformer_one_hot (output : ndarray) (n : nat) :
  shape output = [n] -> well_formed output -> comparable output ->
  (2 <= distinct_count output)%nat ->
  exists out,
    predict_function_transformer output = Ok out /\
    shape out = [n; distinct_count output] /\
    elements out = indicator_rows (classes_of output) (elements output) /\
    forall x, In x (elements output) ->
      count_occ scalar_eq_dec (map (indicator x) (classes_of output))
                (SFloat f64_one) = 1%nat /\
      Forall (fun e => e = SFloat f64_one \/ e = SFloat f64_zero)
             (map (indicator x) (classes_of output)).
Proof.
  intros Hsh Hwf Hcmp Htwo.
  pose proof (classes_of_count output Hcmp) as Hk.
  pose proof (classes_of_length_le output Hcmp) as Hle.
  assert (Hn : buf_len (buf output) = n).
  { unfold well_formed in Hwf. rewrite Hwf, Hsh. simpl. lia. }
  assert (Hn0 : n <> 0%nat) by lia.
  destruct (predict_function_transformer_1d Hsh Hwf Hcmp Hn0)
    as [out [Hrun [Hshape Hel]]].
  exists out. split; [exact Hrun | ]. split; [ | split; [exact Hel | ]].
  - rewrite Hshape, Hk. simpl.
    destruct (Nat.eqb_spec n 1); [lia | ].
    destruct (Nat.eqb_spec (distinct_count output) 1); [lia | reflexivity].
  - intros x Hx.
    destruct (@indicator_row_one_hot x (classes_of output)
                (classes_of_NoDup output)) as [H1 [H2 _]].
    + now apply classes_of_In.
    + auto.
Qed.

(** ** The call returns *)

Lemma model_report_returns predict (batch outputs : ndarray) (e o : pyval)
    (self : Model) :
  predict batch = Ok outputs ->
  getitem0 batch = Ok e ->
  getitem0 outputs = Ok o ->
  exists reports, model_report predict batch self = (Ok reports, self).
Proof.
  intros Hp He Ho. unfold model_report. cbn [bind M_monad].
  unfold M_bind, get, lift, M_ret.
  destruct (isinstance_ndarray (self_examples self)).
  - rewrite Hp, He, Ho. eexists. reflexivity.
  - eexists. reflexivity.
Qed.

Lemma epilogue_returns predict (batch outputs : ndarray) (e o : pyval)
    (self : Model) :
  predict batch = Ok outputs ->
  getitem0 batch = Ok e ->
  getitem0 outputs = Ok o ->
  fst (epilogue predict batch self) = Ok tt.
Proof.
  intros Hp He Ho. unfold epilogue. cbn [bind M_monad].
  unfold M_bind at 1. unfold get. unfold M_bind at 1. unfold modify at 1.
  unfold M_bind.
  destruct (@model_report_returns predict batch outputs e o
              (set_formatter (return_transformer_func self) self) Hp He Ho)
    as [reports ->].
  now rewrite for_each_log.
Qed.

Lemma bind_epilogue_returns (body : M unit) predict (batch : ndarray)
    (self s1 : Model) :
  body self = (Ok tt, s1) ->
  fst (epilogue predict batch s1) = Ok tt ->
  fst (M_bind body (fun _ => epilogue predict batch) self) = Ok tt.
Proof.
  intros Hb He. unfold M_bind. now rewrite Hb.
Qed.

(** Run [check_output_signature] in the goal up to the inference block. *)
Ltac run_goal_to_inference Hany Hp :=
  unfold check_output_signature; rewrite Hany;
  cbv beta iota delta [negb];
  unfold bind at 1; cbv beta iota delta [M_monad];
  unfold M_bind at 1; unfold call, lift; rewrite Hp;
  unfold bind at 1; cbv beta iota delta [M_monad];
  unfold M_bind at 1; unfold modify at 1;
  unfold bind at 1; cbv beta iota delta [M_monad];
  unfold M_bind at 1; unfold modify at 1;
  unfold bind at 1; cbv beta iota delta [M_monad].


(** X5: [check_output_signature] returns whenever the batch passes the guard
    and has a first row, [predict] returns, and the prediction is a 2-d array
    with an element [0][0]. *)
Lemma check_output_signature_returns_2d predict (batch outputs : ndarray)
    (self : Model) (N K : nat) (e first : pyval) :
  np_any batch = true ->
  getitem0 batch = Ok e ->
  predict batch = Ok outputs ->
  shape outputs = [N; K] ->
  result_bind (getitem0 outputs) pyval_getitem0 = Ok first ->
  fst (check_output_signature predict batch self) = Ok tt.
Proof.
  intros Hany He Hp Hsh Hget.
  destruct (getitem0 outputs) as [row | err] eqn:Hrow; [ | discriminate].
  simpl in Hget.
  run_goal_to_inference Hany Hp.
  eapply bind_epilogue_returns;
    [ | exact (@epilogue_returns predict batch outputs e row _ Hp He Hrow) ].
  rewrite Hsh. simpl. unfold M_bind, modify, get, lift.
  rewrite Hrow. simpl. rewrite Hget. simpl. reflexivity.
Qed.

(** ** The further properties on the sample models *)

Lemma check_output_signature_empty_witness :
  check_output_signature predict_echo sample_empty (Model_init 30) =
  (Raise (ModelError "Examples have not been provided. Cannot check outputs"),
   Model_init 30).
Proof.
  refine (@check_output_signature_empty predict_echo sample_empty
            (Model_init 30) _).
  reflexivity.
Defined.

Lemma predict_function_transformer_one_hot_witness :
  exists out,
    predict_function_transformer sample_labels = Ok out /\
    shape out = [3%nat; distinct_count sample_labels] /\
    elements out =
      indicator_rows (classes_of sample_labels) (elements sample_labels) /\
    forall x, In x (elements sample_labels) ->
      count_occ scalar_eq_dec (map (indicator x) (classes_of sample_labels))
                (SFloat f64_one) = 1%nat /\
      Forall (fun e => e = SFloat f64_one \/ e = SFloat f64_zero)
             (map (indicator x) (classes_of sample_labels)).
Proof.
  refine (@predict_function_transformer_one_hot sample_labels 3%nat _ _ _ _).
  - reflexivity.
  - reflexivity.
  - exact I.
  - vm_compute. lia.
Defined.

Lemma check_output_signature_matrix_formatter_witness :
  formatter (snd run_votes) =
  if output_types_eqb (return_data_type (Scalar (SInt 0))) ot_float
  then identity_formatter
  else predict_function_transformer.
Proof.
  refine (@check_output_signature_matrix_formatter predict_votes
            sample_examples sample_votes (Model_init 30) (snd run_votes)
            2%nat 2%nat (Scalar (SInt 0)) _ _ _ _).
  - reflexivity.
  - reflexivity.
  - reflexivity.
  - vm_compute. reflexivity.
Defined.


Lemma check_output_signature_returns_2d_witness :
  fst (check_output_signature predict_scores sample_examples (Model_init 30)) =
  Ok tt.
Proof.
  refine (@check_output_signature_returns_2d predict_scores sample_examples
            sample_scores (Model_init 30) 2%nat 2%nat
            (Array {| shape := [2]%nat; buf := BInt [1; 2] |})
            (Scalar (SFloat f64_zero)) _ _ _ _ _); reflexivity.
Defined.

(** * Properties of whole runs *)

(** ** The structure of [check_output_signature] *)

Lemma check_output_signature_unfold predict (batch : ndarray) :
  check_output_signature predict batch =
  if negb (np_any batch) then
    raise (ModelError "Examples have not been provided. Cannot check outputs")
  else
    M_bind (call predict batch) (fun outputs =>
    M_bind (modify (set_input_shape (Known (shape batch)))) (fun _ =>
    M_bind (modify (set_output_shape (Known (shape outputs)))) (fun _ =>
    M_bind (inference outputs) (fun _ => epilogue predict batch)))).
Proof. reflexivity. Qed.

(** What the inference block may do to an instance, whatever its outcome: it
    leaves the log level, the bound examples, the cached formatter and the
    two shapes alone, only adds to the log, never leaves
    [probability = False] on anything but a classifier, and when it raises
    the formatter that [return_transformer_func] would choose is the one it
    would have chosen before. *)
Lemma inference_outcome (outputs : ndarray) (s s1 : Model) (r : result unit) :
  inference outputs s = (r, s1) ->
  _log_level s1 = _log_level s /\
  examples s1 = examples s /\
  formatter s1 = formatter s /\
  input_shape s1 = input_shape s /\
  output_shape s1 = output_shape s /\
  (exists entries, logger s1 = (logger s ++ entries)%list) /\
  ((probability s = PBool false -> model_type s = classifier) ->
   (probability s1 = PBool false -> model_type s1 = classifier)) /\
  (forall e, r = Raise e ->
     (probability s = PBool false -> model_type s = classifier) ->
     return_transformer_func s1 = return_transformer_func s).
Proof.
  intros H. unfold inference in H.
  assert (Hnil : exists entries, logger s = (logger s ++ entries)%list)
    by (exists []; now rewrite app_nil_r).
  destruct (shape outputs) as [| a [| b [| c sh]]] eqn:Hsh;
    cbn [List.length] in H.
  - injection H as <- <-. repeat split; auto.
  - cbn [bind M_monad] in H. unfold M_bind, lift, modify, get in H.
    destruct (getitem0 outputs) as [first | e] eqn:Hget.
    + cbn in H.
      destruct (return_data_type first) eqn:Hty; cbn in H.
      * injection H as <- <-. cbn. repeat split; auto; try discriminate.
      * destruct (np_unique_len outputs
                    (first_element_comparable outputs Hget (or_introl Hty)))
          as [uniq [Hu Hl]].
        rewrite Hu, Hl in H. injection H as <- <-. cbn.
        repeat split; auto; try discriminate.
      * destruct (np_unique_len outputs
                    (first_element_comparable outputs Hget (or_intror Hty)))
          as [uniq [Hu Hl]].
        rewrite Hu, Hl in H. injection H as <- <-. cbn.
        repeat split; auto; try discriminate.
      * injection H as <- <-. cbn.
        repeat split; auto; try discriminate; try (eexists; reflexivity).
    + injection H as <- <-. repeat split; auto.
  - cbn [bind M_monad] in H. unfold M_bind, lift, modify, get in H.
    destruct (getitem0 outputs) as [row | e] eqn:Hget.
    + destruct (pyval_getitem0 row) as [first | e] eqn:Hfirst.
      * cbn in H. injection H as <- <-. cbn. repeat split; auto; try discriminate.
      * cbn in H. injection H as <- <-. cbn. repeat split; auto.
        intros e0 _ Hinv. unfold return_transformer_func. cbn.
        destruct (probability s) as [[|] | |] eqn:Hp; cbn;
          destruct (model_type s) eqn:Hm; cbn; try reflexivity;
          specialize (Hinv eq_refl); discriminate.
    + cbn in H. injection H as <- <-. cbn. repeat split; auto.
      intros e0 _ Hinv. unfold return_transformer_func. cbn.
      destruct (probability s) as [[|] | |] eqn:Hp; cbn;
        destruct (model_type s) eqn:Hm; cbn; try reflexivity;
        specialize (Hinv eq_refl); discriminate.
  - injection H as <- <-. repeat split; auto.
Qed.

(** The ways a run of [check_output_signature] can go. *)
Lemma check_output_signature_cases predict (batch : ndarray)
    (self self' : Model) (r : result unit) :
  check_output_signature predict batch self = (r, self') ->
  (np_any batch = false /\ self' = self /\
   r = Raise (ModelError
                "Examples have not been provided. Cannot check outputs")) \/
  (np_any batch = true /\ self' = self /\
   exists e, predict batch = Raise e /\ r = Raise e) \/
  (np_any batch = true /\
   exists outputs s1,
     predict batch = Ok outputs /\
     ((exists e,
         inference outputs
           (set_output_shape (Known (shape outputs))
              (set_input_shape (Known (shape batch)) self)) = (Raise e, s1) /\
         r = Raise e /\ self' = s1) \/
      (inference outputs
         (set_output_shape (Known (shape outputs))
            (set_input_shape (Known (shape batch)) self)) = (Ok tt, s1) /\
       epilogue predict batch s1 = (r, self')))).
Proof.
  rewrite check_output_signature_unfold.
  destruct (np_any batch); cbn [negb].
  - intros H. right. unfold M_bind at 1 in H. unfold call, lift in H.
    destruct (predict batch) as [outputs | e].
    + right. split; [reflexivity | ].
      unfold M_bind at 1 in H. unfold modify at 1 in H.
      unfold M_bind at 1 in H. unfold modify at 1 in H.
      unfold M_bind in H.
      destruct (inference outputs _) as [[[] | e] s1] eqn:Hinf.
      * exists outputs, s1. split; [reflexivity | ]. right. auto.
      * injection H as <- <-. exists outputs, s1. split; [reflexivity | ].
        left. exists e. auto.
    + injection H as <- <-. left. split; [reflexivity | ].
      split; [reflexivity | ]. exists e. auto.
  - intros H. injection H as <- <-. left. auto.
Qed.

(** The report reads the instance: it leaves it as it was, and what it
    returns ends with the six attribute lines. *)
Lemma model_report_outcome predict (batch : ndarray) (s : Model) :
  exists r,
    model_report predict batch s = (r, s) /\
    forall reports, r = Ok reports ->
      exists lines, reports = (lines ++ attribute_lines s)%list.
Proof.
  unfold model_report. cbn [bind M_monad].
  unfold M_bind, get, lift, M_ret.
  destruct (isinstance_ndarray (self_examples s)).
  - destruct (predict batch) as [raw | e];
      [ | eexists; split; [reflexivity | discriminate]].
    destruct (getitem0 batch) as [ex | e];
      [ | eexists; split; [reflexivity | discriminate]].
    destruct (getitem0 raw) as [out | e];
      [ | eexists; split; [reflexivity | discriminate]].
    eexists. split; [reflexivity | ].
    intros reports H. injection H as <-.
    exists [ReportExample ex; ReportOutputs out]. reflexivity.
  - eexists. split; [reflexivity | ].
    intros reports H. injection H as <-. exists []. reflexivity.
Qed.

(** What the closing steps do to an instance: they cache the formatter and,
    when the report could be built, log its lines. *)
Lemma epilogue_outcome predict (batch : ndarray) (s s' : Model)
    (r : result unit) :
  epilogue predict batch s = (r, s') ->
  _log_level s' = _log_level s /\
  examples s' = examples s /\
  model_type s' = model_type s /\
  output_var_type s' = output_var_type s /\
  output_shape s' = output_shape s /\
  n_classes s' = n_classes s /\
  input_shape s' = input_shape s /\
  probability s' = probability s /\
  formatter s' = return_transformer_func s /\
  (r = Ok tt ->
   exists lines,
     logger s' =
     (logger s ++ map LogDebug (lines ++ attribute_lines s))%list) /\
  (forall e, r = Raise e -> logger s' = logger s).
Proof.
  unfold epilogue. cbn [bind M_monad].
  unfold M_bind at 1. unfold get. unfold M_bind at 1. unfold modify at 1.
  unfold M_bind.
  destruct (model_report_outcome predict batch
              (set_formatter (return_transformer_func s) s))
    as [rr [Hrep Hlines]].
  rewrite Hrep. destruct rr as [reports | e].
  - rewrite for_each_log. intros H. injection H as <- <-. cbn.
    repeat split; try discriminate.
    intros _. destruct (Hlines reports eq_refl) as [lines ->].
    exists lines. reflexivity.
  - intros H. injection H as <- <-. cbn. repeat split; try discriminate.
Qed.

(** ** What a run leaves alone *)

(** X6: whatever its outcome, [check_output_signature] leaves the log level
    and the examples bound to the instance as they were, and the record of
    logger calls only grows. *)
Theorem check_output_signature_frame predict (batch : ndarray)
    (self : Model) :
  _log_level (snd (check_output_signature predict batch self)) =
    _log_level self /\
  examples (snd (check_output_signature predict batch self)) =
    examples self /\
  exists entries,
    logger (snd (check_output_signature predict batch self)) =
    (logger self ++ entries)%list.
Proof.
  destruct (check_output_signature predict batch self) as [r self'] eqn:Hrun.
  cbn [snd].
  assert (Hnil : exists entries, logger self = (logger self ++ entries)%list)
    by (exists []; now rewrite app_nil_r).
  destruct (check_output_signature_cases _ _ _ Hrun)
    as [[_ [-> _]] | [[_ [-> _]] | [_ [outputs [s1 [_ Hrest]]]]]]; auto.
  assert (Hframe :
            forall rr, inference outputs
              (set_output_shape (Known (shape outputs))
                 (set_input_shape (Known (shape batch)) self)) = (rr, s1) ->
            _log_level s1 = _log_level self /\
            examples s1 = examples self /\
            exists entries, logger s1 = (logger self ++ entries)%list).
  { intros rr Hinf.
    destruct (inference_outcome _ _ Hinf) as [Hl [He [_ [_ [_ [Hlog _]]]]]].
    auto. }
  destruct Hrest as [[e [Hinf [_ ->]]] | [Hinf Hepi]].
  - exact (Hframe _ Hinf).
  - destruct (Hframe _ Hinf) as [Hl [He [entries Hlog]]].
    destruct (@epilogue_outcome predict batch s1 self' r Hepi)
      as [Hl' [He' [_ [_ [_ [_ [_ [_ [_ [Hok Herr]]]]]]]]]].
    split; [congruence | ]. split; [congruence | ].
    destruct r as [[] | e].
    + destruct (Hok eq_refl) as [lines Hlines].
      eexists. rewrite Hlines, Hlog, <- app_assoc. reflexivity.
    + rewrite (Herr e eq_refl). eauto.
Qed.

(** X7: once [predict] has returned, the shapes of the batch and of the
    prediction are recorded, whether the rest of the call succeeds or
    raises. *)
Theorem check_output_signature_records_shapes predict
    (batch outputs : ndarray) (self : Model) :
  np_any batch = true ->
  predict batch = Ok outputs ->
  input_shape (snd (check_output_signature predict batch self)) =
    Known (shape batch) /\
  output_shape (snd (check_output_signature predict batch self)) =
    Known (shape outputs).
Proof.
  intros Hany Hp.
  destruct (check_output_signature predict batch self) as [r self'] eqn:Hrun.
  cbn [snd].
  destruct (check_output_signature_cases _ _ _ Hrun)
    as [[Hno _] | [[_ [_ [e [Hpe _]]]] | [_ [outputs' [s1 [Hp' Hrest]]]]]];
    try congruence.
  assert (outputs' = outputs) by congruence. subst outputs'.
  assert (Hshapes :
            forall rr, inference outputs
              (set_output_shape (Known (shape outputs))
                 (set_input_shape (Known (shape batch)) self)) = (rr, s1) ->
            input_shape s1 = Known (shape batch) /\
            output_shape s1 = Known (shape outputs)).
  { intros rr Hinf.
    destruct (inference_outcome _ _ Hinf) as [_ [_ [_ [Hi [Ho _]]]]].
    rewrite Hi, Ho. split; reflexivity. }
  destruct Hrest as [[e [Hinf [_ ->]]] | [Hinf Hepi]].
  - exact (Hshapes _ Hinf).
  - destruct (Hshapes _ Hinf) as [Hi Ho].
    destruct (@epilogue_outcome predict batch s1 self' r Hepi)
      as [_ [_ [_ [_ [Ho' [_ [Hi' _]]]]]]].
    split; congruence.
Qed.

Lemma check_output_signature_records_shapes_witness :
  input_shape (snd (check_output_signature predict_cube sample_examples
                      (Model_init 30))) = Known (shape sample_examples) /\
  output_shape (snd (check_output_signature predict_cube sample_examples
                       (Model_init 30))) = Known (shape sample_cube).
Proof.
  refine (@check_output_signature_records_shapes predict_cube sample_examples
            sample_cube (Model_init 30) _ _); reflexivity.
Defined.

(** X8: an exception raised by [predict] leaves [check_output_signature] as
    it is, and no attribute of the instance has been assigned. *)
Theorem check_output_signature_predict_raises predict (batch : ndarray)
    (self : Model) (e : exn) :
  np_any batch = true ->
  predict batch = Raise e ->
  check_output_signature predict batch self = (Raise e, self).
Proof.
  intros Hany Hp. rewrite check_output_signature_unfold, Hany. cbn [negb].
  unfold M_bind at 1. unfold call, lift. now rewrite Hp.
Qed.

Lemma check_output_signature_predict_raises_witness :
  check_output_signature predict_fail sample_examples (Model_init 30) =
  (Raise (OtherError "model not fitted"), Model_init 30).
Proof.
  refine (@check_output_signature_predict_raises predict_fail sample_examples
            (Model_init 30) (OtherError "model not fitted") _ _); reflexivity.
Defined.

(** ** Instances obtained through the methods *)

Lemma return_transformer_func_ext (s s' : Model) :
  model_type s' = model_type s -> probability s' = probability s ->
  return_transformer_func s' = return_transformer_func s.
Proof.
  intros Hm Hp. unfold return_transformer_func. now rewrite Hm, Hp.
Qed.

(** What holds of every instance obtained through the methods: the bound
    examples are an ndarray, the cached formatter is the one
    [return_transformer_func] chooses, and [probability = False] only goes
    with a classifier. *)
Lemma reachable_inv predict (self : Model) :
  reachable predict self ->
  isinstance_ndarray (examples self) = true /\
  formatter self = return_transformer_func self /\
  (probability self = PBool false -> model_type self = classifier).
Proof.
  induction 1 as [lvl | v self Hr IH | batch self Hr IH | batch self Hr IH].
  - repeat split. discriminate.
  - destruct IH as [_ [Hf Hinv]]. cbn. repeat split; auto.
  - destruct IH as [Hex [Hf Hinv]].
    destruct (check_output_signature predict batch self) as [r self'] eqn:Hrun.
    cbn [snd].
    destruct (check_output_signature_cases _ _ _ Hrun)
      as [[_ [-> _]] | [[_ [-> _]] | [_ [outputs [s1 [_ Hrest]]]]]]; auto.
    assert (Hs1 :
              forall rr, inference outputs
                (set_output_shape (Known (shape outputs))
                   (set_input_shape (Known (shape batch)) self)) = (rr, s1) ->
              isinstance_ndarray (examples s1) = true /\
              formatter s1 = formatter self /\
              (probability s1 = PBool false -> model_type s1 = classifier) /\
              (forall e, rr = Raise e ->
                 return_transformer_func s1 = return_transformer_func self)).
    { intros rr Hinf.
      destruct (inference_outcome _ _ Hinf)
        as [_ [He [Hfm [_ [_ [_ [Hkeep Hraise]]]]]]].
      split; [rewrite He; exact Hex | ].
      split; [exact Hfm | ].
      split; [exact (Hkeep Hinv) | ].
      intros e ->. exact (Hraise e eq_refl Hinv). }
    destruct Hrest as [[e [Hinf [_ ->]]] | [Hinf Hepi]].
    + destruct (Hs1 _ Hinf) as [H1 [H2 [H3 H4]]].
      repeat split; auto. rewrite H2, (H4 e eq_refl). exact Hf.
    + destruct (Hs1 _ Hinf) as [H1 [H2 [H3 _]]].
      destruct (@epilogue_outcome predict batch s1 self' r Hepi)
        as [_ [He' [Hm [_ [_ [_ [_ [Hp [Hfm _]]]]]]]]].
      split; [rewrite He'; exact H1 | ].
      split.
      * rewrite Hfm. symmetry. now apply return_transformer_func_ext.
      * rewrite Hm, Hp. exact H3.
  - now rewrite model_report_state.
Qed.



(** X10: on every instance obtained through the methods [self.examples] is an
    ndarray, so a report that is returned always opens with the example and
    output lines of the batch it was given, closes with the six attribute
    lines, and the instance is as it was. *)
Theorem model_report_reachable predict (batch : ndarray) (self s' : Model)
    (reports : list report) :
  reachable predict self ->
  model_report predict batch self = (Ok reports, s') ->
  s' = self /\
  exists ex raw out,
    getitem0 batch = Ok ex /\
    predict batch = Ok raw /\
    getitem0 raw = Ok out /\
    reports =
    (ReportExample ex :: ReportOutputs out :: attribute_lines self)%list.
Proof.
  intros Hr. destruct (reachable_inv Hr) as [Hex _].
  unfold model_report. cbn [bind M_monad].
  unfold M_bind, get, lift, M_ret. unfold self_examples. rewrite Hex.
  destruct (predict batch) as [raw | e] eqn:Hp; [ | discriminate].
  destruct (getitem0 batch) as [ex | e] eqn:Hb; [ | discriminate].
  destruct (getitem0 raw) as [out | e] eqn:Ho; [ | discriminate].
  intros H. injection H as <- <-. split; [reflexivity | ].
  exists ex, raw, out. repeat split; try reflexivity. exact Ho.
Qed.

Lemma model_report_reachable_witness :
  snd (model_report predict_labels sample_examples (Model_init 30)) =
    Model_init 30 /\
  exists ex raw out,
    getitem0 sample_examples = Ok ex /\
    predict_labels sample_examples = Ok raw /\
    getitem0 raw = Ok out /\
    [ReportExample (Array {| shape := [2]%nat; buf := BInt [1; 2] |});
     ReportOutputs (Scalar (SStr "dog"));
     ReportModelType mt_unknown; ReportOutputVarType ot_unknown;
     ReportOutputShape Unknown; ReportNClasses Unknown;
     ReportInputShape Unknown; ReportProbability PUnknown] =
    (ReportExample ex :: ReportOutputs out ::
       attribute_lines (Model_init 30))%list.
Proof.
  refine (@model_report_reachable predict_labels sample_examples
            (Model_init 30) _ _ _ _).
  - apply reach_init.
  - reflexivity.
Defined.

(** ** Successful runs *)

(** A run that returns went through the inference block and the closing
    steps, both without raising. *)
Lemma check_output_signature_success predict (batch outputs : ndarray)
    (self self' : Model) :
  predict batch = Ok outputs ->
  check_output_signature predict batch self = (Ok tt, self') ->
  exists s1,
    inference outputs
      (set_output_shape (Known (shape outputs))
         (set_input_shape (Known (shape batch)) self)) = (Ok tt, s1) /\
    epilogue predict batch s1 = (Ok tt, self').
Proof.
  intros Hp Hrun.
  destruct (check_output_signature_cases _ _ _ Hrun)
    as [[_ [_ H]] | [[_ [_ [e [_ H]]]] | [_ [outputs' [s1 [Hp' Hrest]]]]]];
    try discriminate.
  assert (outputs' = outputs) by congruence. subst outputs'.
  destruct Hrest as [[e [_ [H _]]] | [Hinf Hepi]]; [discriminate | ].
  exists s1. auto.
Qed.

(** X11: when [check_output_signature] returns, the last records of the
    logger are the debug lines of the report, and the report closes with the
    six attributes as this call has left them. *)
Theorem check_output_signature_logs_report predict (batch : ndarray)
    (self self' : Model) :
  check_output_signature predict batch self = (Ok tt, self') ->
  exists before lines,
    logger self' =
    (logger self ++ before ++
       map LogDebug (lines ++ attribute_lines self'))%list.
Proof.
  intros Hrun.
  destruct (check_output_signature_cases _ _ _ Hrun)
    as [[_ [_ H]] | [[_ [_ [e [_ H]]]] | [_ [outputs [s1 [Hp Hrest]]]]]];
    try discriminate.
  destruct Hrest as [[e [_ [H _]]] | [Hinf Hepi]]; [discriminate | ].
  destruct (inference_outcome _ _ Hinf)
    as [_ [_ [_ [_ [_ [[before Hlog] _]]]]]].
  destruct (@epilogue_outcome predict batch s1 self' (Ok tt) Hepi)
    as [_ [_ [Hm [Hv [Hos [Hn [His [Hpr [_ [Hok _]]]]]]]]]].
  destruct (Hok eq_refl) as [lines Hlines].
  exists before, lines. rewrite Hlines, Hlog.
  unfold attribute_lines. rewrite Hm, Hv, Hos, Hn, His, Hpr.
  cbn. now rewrite <- app_assoc.
Qed.

Lemma check_output_signature_logs_report_witness :
  exists before lines,
    logger (snd run_values) =
    (logger (Model_init 30) ++ before ++
       map LogDebug (lines ++ attribute_lines (snd run_values)))%list.
Proof.
  refine (@check_output_signature_logs_report predict_values sample_examples
            (Model_init 30) (snd run_values) _).
  vm_compute. reflexivity.
Defined.

(** X12: when the first element of a 1-d prediction is neither a string, an
    integer nor a float, the call that returns has inferred nothing:
    [model_type], [n_classes] and [probability] keep their prior values,
    [output_var_type] is unknown, and the formatter is chosen from the prior
    [model_type] and [probability]. *)
Theorem check_output_signature_unknown_type predict
    (batch outputs : ndarray) (self self' : Model) (n : nat) (first : pyval) :
  predict batch = Ok outputs ->
  shape outputs = [n] ->
  getitem0 outputs = Ok first ->
  return_data_type first = ot_unknown ->
  check_output_signature predict batch self = (Ok tt, self') ->
  model_type self' = model_type self /\
  n_classes self' = n_classes self /\
  probability self' = probability self /\
  output_var_type self' = ot_unknown /\
  formatter self' = return_transformer_func self.
Proof.
  intros Hp Hsh Hget Hty Hrun.
  destruct (@check_output_signature_success predict batch outputs self self'
              Hp Hrun) as [s1 [Hinf Hepi]].
  destruct (@epilogue_outcome predict batch s1 self' (Ok tt) Hepi)
    as [_ [_ [Hm [Hv [_ [Hn [_ [Hpr [Hf _]]]]]]]]].
  unfold inference in Hinf. rewrite Hsh in Hinf. cbn [List.length] in Hinf.
  cbn [bind M_monad] in Hinf. unfold M_bind, lift, modify, get in Hinf.
  rewrite Hget in Hinf. cbn in Hinf. rewrite Hty in Hinf. cbn in Hinf.
  injection Hinf as <-. rewrite Hm, Hn, Hpr, Hv, Hf. repeat split.
Qed.

Lemma check_output_signature_unknown_type_witness :
  model_type (snd (check_output_signature predict_nones sample_examples
                     (snd run_labels))) = model_type (snd run_labels) /\
  n_classes (snd (check_output_signature predict_nones sample_examples
                    (snd run_labels))) = n_classes (snd run_labels) /\
  probability (snd (check_output_signature predict_nones sample_examples
                      (snd run_labels))) = probability (snd run_labels) /\
  output_var_type (snd (check_output_signature predict_nones sample_examples
                          (snd run_labels))) = ot_unknown /\
  formatter (snd (check_output_signature predict_nones sample_examples
                    (snd run_labels))) =
    return_transformer_func (snd run_labels).
Proof.
  refine (@check_output_signature_unknown_type predict_nones sample_examples
            sample_nones (snd run_labels) _ 2%nat (Scalar SNone) _ _ _ _ _).
  - reflexivity.
  - reflexivity.
  - reflexivity.
  - reflexivity.
  - vm_compute. reflexivity.
Defined.

(** ** Reading the encoding entry by entry *)

(** Entry [i][j] of the indicator rows, stored row after row, is the
    indicator of label [i] under class [j]. *)
Lemma indicator_rows_nth (classes labels : list scalar) (i j : nat) :
  (i < List.length labels)%nat -> (j < List.length classes)%nat ->
  nth (i * List.length classes + j) (indicator_rows classes labels) SNone =
  indicator (nth i labels SNone) (nth j classes SNone).
Proof.
  unfold indicator_rows. revert i.
  induction labels as [| x labels IH]; intros i Hi Hj; [simpl in Hi; lia | ].
  cbn [flat_map]. destruct i as [| i].
  - cbn [Nat.mul Nat.add nth].
    rewrite app_nth1 by (now rewrite length_map).
    rewrite (nth_indep _ SNone (indicator x SNone))
      by (now rewrite length_map).
    now rewrite map_nth.
  - rewrite app_nth2 by (rewrite length_map; simpl; lia).
    rewrite length_map.
    replace (S i * List.length classes + j - List.length classes)%nat
      with (i * List.length classes + j)%nat by (simpl; lia).
    cbn [nth]. apply IH; [simpl in Hi; lia | exact Hj].
Qed.

(** The encoding of labels with two distinct values or more, entry by
    entry. *)
Lemma predict_function_transformer_entries (output : ndarray) (n : nat) :
  shape output = [n] -> well_formed output -> comparable output ->
  (2 <= distinct_count output)%nat ->
  exists out,
    predict_function_transformer output = Ok out /\
    shape out = [n; distinct_count output] /\
    forall i j, (i < n)%nat -> (j < distinct_count output)%nat ->
      entry out (distinct_count output) i j =
      indicator (nth i (elements output) SNone)
                (nth j (classes_of output) SNone).
Proof.
  intros Hsh Hwf Hcmp Htwo.
  pose proof (classes_of_count output Hcmp) as Hk.
  pose proof (classes_of_length_le output Hcmp) as Hle.
  assert (Hn : buf_len (buf output) = n).
  { unfold well_formed in Hwf. rewrite Hwf, Hsh. simpl. lia. }
  assert (Hn0 : n <> 0%nat) by lia.
  destruct (predict_function_transformer_1d Hsh Hwf Hcmp Hn0)
    as [out [Hrun [Hshape Hel]]].
  exists out. split; [exact Hrun | ]. split.
  - rewrite Hshape, Hk. simpl.
    destruct (Nat.eqb_spec n 1); [lia | ].
    destruct (Nat.eqb_spec (distinct_count output) 1); [lia | reflexivity].
  - intros i j Hi Hj. unfold entry. rewrite Hel, <- Hk.
    apply indicator_rows_nth.
    + now rewrite elements_length, Hn.
    + now rewrite Hk.
Qed.

(** X13: the encoding loses nothing. In the result of
    [predict_function_transformer] on labels with two distinct values or
    more, entry [i][j] is 1.0 exactly when class [j] of the sorted distinct
    values is label [i], and every row has such a column: reading off the
    column of the 1.0 gives the label back. *)
Theorem predict_function_transformer_round_trip (output : ndarray) (n : nat) :
  shape output = [n] -> well_formed output -> comparable output ->
  (2 <= distinct_count output)%nat ->
  exists out,
    predict_function_transformer output = Ok out /\
    forall i, (i < n)%nat ->
      (forall j, (j < distinct_count output)%nat ->
         (entry out (distinct_count output) i j = SFloat f64_one <->
          nth j (classes_of output) SNone = nth i (elements output) SNone)) /\
      (exists j, (j < distinct_count output)%nat /\
         entry out (distinct_count output) i j = SFloat f64_one).
Proof.
  intros Hsh Hwf Hcmp Htwo.
  destruct (predict_function_transformer_entries Hsh Hwf Hcmp Htwo)
    as [out [Hrun [_ Hent]]].
  exists out. split; [exact Hrun | ]. intros i Hi.
  assert (Hiff : forall j, (j < distinct_count output)%nat ->
            (entry out (distinct_count output) i j = SFloat f64_one <->
             nth j (classes_of output) SNone = nth i (elements output) SNone)).
  { intros j Hj. rewrite (Hent i j Hi Hj). unfold indicator.
    destruct (scalar_eq_dec (nth i (elements output) SNone)
                (nth j (classes_of output) SNone)) as [E | N].
    - split; auto.
    - split; [discriminate | congruence]. }
  split; [exact Hiff | ].
  assert (Hlen : List.length (elements output) = n).
  { rewrite elements_length. unfold well_formed in Hwf.
    rewrite Hwf, Hsh. simpl. lia. }
  assert (Hin : In (nth i (elements output) SNone) (classes_of output)).
  { apply classes_of_In; [exact Hcmp | ]. apply nth_In. now rewrite Hlen. }
  destruct (In_nth _ _ SNone Hin) as [j [Hj Hnth]].
  rewrite (classes_of_count output Hcmp) in Hj.
  exists j. split; [exact Hj | ]. now apply Hiff.
Qed.

Lemma predict_function_transformer_round_trip_witness :
  exists out,
    predict_function_transformer sample_labels = Ok out /\
    forall i, (i < 3)%nat ->
      (forall j, (j < distinct_count sample_labels)%nat ->
         (entry out (distinct_count sample_labels) i j = SFloat f64_one <->
          nth j (classes_of sample_labels) SNone =
          nth i (elements sample_labels) SNone)) /\
      (exists j, (j < distinct_count sample_labels)%nat /\
         entry out (distinct_count sample_labels) i j = SFloat f64_one).
Proof.
  refine (@predict_function_transformer_round_trip sample_labels 3%nat
            _ _ _ _).
  - reflexivity.
  - reflexivity.
  - exact I.
  - vm_compute. lia.
Defined.

(** ** The cached formatter at work *)

(** X14: after a call that returns on a 1-d prediction of string or integer
    labels with two distinct values or more, the cached formatter turns that
    prediction into a 2-d array with one row per label and exactly
    [n_classes] columns, whose entry [i][j] is the indicator of label [i]
    under class [j]. *)
Theorem check_output_signature_formatter_encodes predict
    (batch outputs : ndarray) (self self' : Model) (n : nat) (first : pyval) :
  predict batch = Ok outputs ->
  shape outputs = [n] ->
  well_formed outputs ->
  getitem0 outputs = Ok first ->
  return_data_type first = ot_string \/ return_data_type first = ot_int ->
  (2 <= distinct_count outputs)%nat ->
  check_output_signature predict batch self = (Ok tt, self') ->
  exists out k,
    formatter self' outputs = Ok out /\
    n_classes self' = Known k /\
    shape out = [n; k] /\
    forall i j, (i < n)%nat -> (j < k)%nat ->
      entry out k i j =
      indicator (nth i (elements outputs) SNone)
                (nth j (classes_of outputs) SNone).
Proof.
  intros Hp Hsh Hwf Hget Hty Htwo Hrun.
  pose proof (first_element_comparable outputs Hget Hty) as Hcmp.
  destruct (np_unique_len outputs Hcmp) as [uniq [Huniq Hlen]].
  destruct (@check_output_signature_success predict batch outputs self self'
              Hp Hrun) as [s1 [Hinf Hepi]].
  destruct (@epilogue_outcome predict batch s1 self' (Ok tt) Hepi)
    as [_ [_ [_ [_ [_ [Hn [_ [_ [Hf _]]]]]]]]].
  unfold inference in Hinf. rewrite Hsh in Hinf. cbn [List.length] in Hinf.
  cbn [bind M_monad] in Hinf. unfold M_bind, lift, modify, get in Hinf.
  rewrite Hget in Hinf. cbn in Hinf.
  assert (Hb : output_types_eqb (return_data_type first) ot_string
               || output_types_eqb (return_data_type first) ot_int = true)
    by (destruct Hty as [-> | ->]; reflexivity).
  rewrite Hb, Huniq, Hlen in Hinf. injection Hinf as <-.
  destruct (predict_function_transformer_entries Hsh Hwf Hcmp Htwo)
    as [out [Hout [Hshape Hent]]].
  exists out, (distinct_count outputs).
  rewrite Hf, Hn. cbn. auto.
Qed.

Lemma check_output_signature_formatter_encodes_witness :
  exists out k,
    formatter (snd run_labels) sample_labels = Ok out /\
    n_classes (snd run_labels) = Known k /\
    shape out = [3%nat; k] /\
    forall i j, (i < 3)%nat -> (j < k)%nat ->
      entry out k i j =
      indicator (nth i (elements sample_labels) SNone)
                (nth j (classes_of sample_labels) SNone).
Proof.
  refine (@check_output_signature_formatter_encodes predict_labels
            sample_examples sample_labels (Model_init 30) (snd run_labels)
            3%nat (Scalar (SStr "dog")) _ _ _ _ _ _ _).
  - reflexivity.
  - reflexivity.
  - reflexivity.
  - reflexivity.
  - left. reflexivity.
  - vm_compute. lia.
  - vm_compute. reflexivity.
Defined.

(** ** Running the check again *)

(** The inference block run on an instance that already carries what it
    infers returns again and infers the same. *)
Lemma inference_again (outputs : ndarray) (s s1 t : Model) :
  inference outputs s = (Ok tt, s1) ->
  model_type t = model_type s1 ->
  n_classes t = n_classes s1 ->
  probability t = probability s1 ->
  exists t1,
    inference outputs t = (Ok tt, t1) /\
    model_type t1 = model_type s1 /\
    output_var_type t1 = output_var_type s1 /\
    n_classes t1 = n_classes s1 /\
    probability t1 = probability s1.
Proof.
  intros H Hm Hn Hpr. unfold inference in *.
  destruct (shape outputs) as [| a [| b [| c sh]]] eqn:Hsh;
    cbn [List.length] in *; try discriminate.
  - cbn [bind M_monad] in *. unfold M_bind, lift, modify, get in *.
    destruct (getitem0 outputs) as [first | e] eqn:Hget; [ | discriminate].
    cbn in H. cbn.
    destruct (return_data_type first) eqn:Hty; cbn in H; cbn.
    + injection H as <-. cbn in *. eexists. split; [reflexivity | ].
      cbn. auto.
    + destruct (np_unique_len outputs
                  (first_element_comparable outputs Hget (or_introl Hty)))
        as [uniq [Hu Hl]].
      rewrite Hu, Hl in H. rewrite Hu, Hl. injection H as <-.
      eexists. split; [reflexivity | ]. cbn. auto.
    + destruct (np_unique_len outputs
                  (first_element_comparable outputs Hget (or_intror Hty)))
        as [uniq [Hu Hl]].
      rewrite Hu, Hl in H. rewrite Hu, Hl. injection H as <-.
      eexists. split; [reflexivity | ]. cbn. auto.
    + injection H as <-. eexists. split; [reflexivity | ]. cbn. auto.
  - cbn [bind M_monad] in *. unfold M_bind, lift, modify, get in *.
    destruct (getitem0 outputs) as [row | e] eqn:Hget; [ | discriminate].
    destruct (pyval_getitem0 row) as [first | e] eqn:Hfirst;
      [ | discriminate].
    cbn in H. cbn. injection H as <-.
    eexists. split; [reflexivity | ]. cbn. auto.
Qed.

(** Whether the report can be built depends on the instance through the
    bound examples only. *)
Lemma model_report_result_ext predict (batch : ndarray) (s t : Model) :
  examples t = examples s ->
  match fst (model_report predict batch t) with
  | Ok _ => Ok tt
  | Raise e => Raise e
  end =
  match fst (model_report predict batch s) with
  | Ok _ => Ok tt
  | Raise e => Raise e
  end.
Proof.
  intros Hex. unfold model_report. cbn [bind M_monad].
  unfold M_bind, get, lift, M_ret, self_examples. rewrite Hex.
  destruct (isinstance_ndarray (examples s)); [ | reflexivity].
  destruct (predict batch) as [raw | e]; [ | reflexivity].
  destruct (getitem0 batch) as [ex | e]; [ | reflexivity].
  destruct (getitem0 raw) as [out | e]; reflexivity.
Qed.

(** The closing steps return when the report can be built, and raise what
    building it raises. *)
Lemma epilogue_result predict (batch : ndarray) (s : Model) :
  fst (epilogue predict batch s) =
  match fst (model_report predict batch
               (set_formatter (return_transformer_func s) s)) with
  | Ok _ => Ok tt
  | Raise e => Raise e
  end.
Proof.
  unfold epilogue. cbn [bind M_monad].
  unfold M_bind at 1. unfold get. unfold M_bind at 1. unfold modify at 1.
  unfold M_bind.
  destruct (model_report predict batch
              (set_formatter (return_transformer_func s) s))
    as [[reports | e] s'].
  - now rewrite for_each_log.
  - reflexivity.
Qed.

Lemma epilogue_result_ext predict (batch : ndarray) (s t : Model) :
  examples t = examples s ->
  fst (epilogue predict batch t) = fst (epilogue predict batch s).
Proof.
  intros Hex. rewrite !epilogue_result.
  apply model_report_result_ext. exact Hex.
Qed.

(** X15: the check can be repeated. When a call has returned, the same call
    on the instance it left returns again and assigns every attribute,
    the cached formatter included, the value it already had; only the log
    has grown. *)
Theorem check_output_signature_idempotent predict (batch : ndarray)
    (self self' : Model) :
  check_output_signature predict batch self = (Ok tt, self') ->
  exists self'',
    check_output_signature predict batch self' = (Ok tt, self'') /\
    _log_level self'' = _log_level self' /\
    examples self'' = examples self' /\
    model_type self'' = model_type self' /\
    output_var_type self'' = output_var_type self' /\
    output_shape self'' = output_shape self' /\
    n_classes self'' = n_classes self' /\
    input_shape self'' = input_shape self' /\
    probability self'' = probability self' /\
    formatter self'' = formatter self'.
Proof.
  intros Hrun.
  destruct (check_output_signature_cases _ _ _ Hrun)
    as [[_ [_ H]] | [[_ [_ [e [_ H]]]] | [Hany [outputs [s1 [Hp Hrest]]]]]];
    try discriminate.
  destruct Hrest as [[e [_ [H _]]] | [Hinf Hepi]]; [discriminate | ].
  destruct (inference_outcome _ _ Hinf)
    as [_ [_ [_ [Hi1 [Ho1 _]]]]].
  destruct (@epilogue_outcome predict batch s1 self' (Ok tt) Hepi)
    as [Hl [Hex [Hm [Hv [Hos [Hn [His [Hpr [Hf _]]]]]]]]].
  destruct (@inference_again outputs _ s1
              (set_output_shape (Known (shape outputs))
                 (set_input_shape (Known (shape batch)) self'))
              Hinf Hm Hn Hpr)
    as [t1 [Hinf2 [Hm2 [Hv2 [Hn2 Hpr2]]]]].
  destruct (inference_outcome _ _ Hinf2)
    as [Hl2 [Hex2 [_ [Hi2 [Ho2 _]]]]].
  destruct (epilogue predict batch t1) as [r2 self''] eqn:Hepi2.
  assert (Hr2 : r2 = Ok tt).
  { assert (He : examples t1 = examples s1)
      by (rewrite Hex2; cbn; now rewrite Hex).
    pose proof (@epilogue_result_ext predict batch s1 t1 He) as Hres.
    rewrite Hepi2, Hepi in Hres. exact Hres. }
  subst r2.
  destruct (@epilogue_outcome predict batch t1 self'' (Ok tt) Hepi2)
    as [Hl3 [Hex3 [Hm3 [Hv3 [Hos3 [Hn3 [His3 [Hpr3 [Hf3 _]]]]]]]]].
  exists self''. split.
  - rewrite check_output_signature_unfold, Hany. cbn [negb].
    unfold M_bind at 1. unfold call, lift. rewrite Hp.
    unfold M_bind at 1. unfold modify at 1.
    unfold M_bind at 1. unfold modify at 1.
    unfold M_bind. rewrite Hinf2. exact Hepi2.
  - rewrite Hl3, Hex3, Hm3, Hv3, Hos3, Hn3, His3, Hpr3, Hf3.
    rewrite Hl2, Hex2, Hm2, Hv2, Hn2, Hpr2, Hi2, Ho2.
    rewrite Hm, Hv, Hos, Hn, His, Hpr, Hf, Hi1, Ho1. cbn.
    repeat split.
    apply return_transformer_func_ext; [exact Hm2 | exact Hpr2].
Qed.

Lemma check_output_signature_idempotent_witness :
  exists self'',
    check_output_signature predict_values sample_examples (snd run_values) =
      (Ok tt, self'') /\
    _log_level self'' = _log_level (snd run_values) /\
    examples self'' = examples (snd run_values) /\
    model_type self'' = model_type (snd run_values) /\
    output_var_type self'' = output_var_type (snd run_values) /\
    output_shape self'' = output_shape (snd run_values) /\
    n_classes self'' = n_classes (snd run_values) /\
    input_shape self'' = input_shape (snd run_values) /\
    probability self'' = probability (snd run_values) /\
    formatter self'' = formatter (snd run_values).
Proof.
  refine (@check_output_signature_idempotent predict_values sample_examples
            (Model_init 30) (snd run_values) _).
  vm_compute. reflexivity.
Defined.

(** ** Predictions with no element *)

(** X16: a prediction with no element makes [check_output_signature] raise
    [IndexError] when it reads the first element. A 1-d prediction has by
    then changed nothing but the two shapes; a 2-d one, of shape [(N, K)]
    with [N = 0] or [K = 0], has already overwritten [model_type] with
    classifier and [n_classes] with [K], while [output_var_type],
    [probability] and the cached formatter keep their prior values. *)
Theorem check_output_signature_empty_prediction predict
    (batch outputs : ndarray) (self self' : Model) (r : result unit) :
  np_any batch = true ->
  predict batch = Ok outputs ->
  check_output_signature predict batch self = (r, self') ->
  (shape outputs = [0%nat] ->
   r = Raise IndexError /\
   model_type self' = model_type self /\
   n_classes self' = n_classes self /\
   output_var_type self' = output_var_type self /\
   probability self' = probability self /\
   formatter self' = formatter self) /\
  (forall N K, shape outputs = [N; K] -> (N * K = 0)%nat ->
   r = Raise IndexError /\
   model_type self' = classifier /\
   n_classes self' = Known K /\
   output_var_type self' = output_var_type self /\
   probability self' = probability self /\
   formatter self' = formatter self).
Proof.
  intros Hany Hp Hrun.
  rewrite check_output_signature_unfold, Hany in Hrun. cbn [negb] in Hrun.
  unfold M_bind at 1 in Hrun. unfold call, lift in Hrun. rewrite Hp in Hrun.
  unfold M_bind at 1 in Hrun. unfold modify at 1 in Hrun.
  unfold M_bind at 1 in Hrun. unfold modify at 1 in Hrun.
  unfold M_bind at 1 in Hrun. unfold inference in Hrun.
  split.
  - intros Hsh. rewrite Hsh in Hrun. cbn [List.length] in Hrun.
    cbn [bind M_monad] in Hrun. unfold M_bind, lift, modify, get in Hrun.
    unfold getitem0 in Hrun. rewrite Hsh in Hrun.
    injection Hrun as <- <-. cbn. repeat split.
  - intros N K Hsh Hzero. rewrite Hsh in Hrun. cbn [List.length] in Hrun.
    cbn [bind M_monad] in Hrun. unfold M_bind, lift, modify, get in Hrun.
    unfold getitem0 at 1 in Hrun. rewrite Hsh in Hrun. cbn [nth] in Hrun.
    destruct N as [| N].
    + injection Hrun as <- <-. cbn. repeat split.
    + assert (K = 0%nat) by lia. subst K. cbn in Hrun.
      injection Hrun as <- <-. cbn. repeat split.
Qed.

Lemma check_output_signature_empty_prediction_witness :
  fst (check_output_signature predict_no_rows sample_examples
         (snd run_values)) = Raise IndexError /\
  model_type (snd (check_output_signature predict_no_rows sample_examples
                     (snd run_values))) = classifier /\
  n_classes (snd (check_output_signature predict_no_rows sample_examples
                    (snd run_values))) = Known 2%nat /\
  output_var_type (snd (check_output_signature predict_no_rows
                          sample_examples (snd run_values))) =
    output_var_type (snd run_values) /\
  probability (snd (check_output_signature predict_no_rows sample_examples
                      (snd run_values))) = probability (snd run_values) /\
  formatter (snd (check_output_signature predict_no_rows sample_examples
                    (snd run_values))) = formatter (snd run_values).
Proof.
  refine (proj2 (@check_output_signature_empty_prediction predict_no_rows
            sample_examples sample_no_rows (snd run_values)
            (snd (check_output_signature predict_no_rows sample_examples
                    (snd run_values)))
            (fst (check_output_signature predict_no_rows sample_examples
                    (snd run_values))) _ _ _) 0%nat 2%nat _ _).
  - reflexivity.
  - reflexivity.
  - apply surjective_pairing.
  - reflexivity.
  - reflexivity.
Defined.
